(** * MediGuard: the authenticity rule engine, the reminder generator and the
    reminder scheduler

    A shallow embedding of [verify_medicine_authenticity] and
    [generate_medicine_reminders] (src/app.py) and of [schedule_reminder]
    (src/scheduler.py), with the properties of the specification stated
    and proved over it.

    Conventions.
    - A Python [str] is a [string]; the library string methods the code
      calls ([upper], [lower], [isalpha], [isdigit], [in], [startswith],
      [split], [int], [strptime]) are written out on the ASCII range, where
      characters above 127 are neither letters, digits nor blanks and are
      left alone by the case conversions.
    - A Python [int] is a [Z].
    - A naive [datetime] is the number of microseconds elapsed since
      0001-01-01T00:00:00, a [Z] between [0] and [datetime_max]; comparing
      two datetimes is comparing these numbers.
    - The clock is an argument: [now] for [datetime.now()], and a reading
      per loop iteration for [datetime.utcnow()]. *)

From Stdlib Require Import ZArith List Bool Lia Sorted.
From Stdlib Require Import Strings.Ascii Strings.String Numbers.DecimalString
  Numbers.DecimalZ.
Import ListNotations.

Open Scope bool_scope.
Open Scope string_scope.
Open Scope Z_scope.

(** ** Python strings *)

Module PyStr.

Definition code (c : ascii) : Z := Z.of_nat (nat_of_ascii c).

Definition in_range (lo hi : Z) (c : ascii) : bool :=
  (lo <=? code c) && (code c <=? hi).

(** [c.isdigit()], [c.isalpha()] on one character *)
Definition isdigit (c : ascii) : bool := in_range 48 57 c.
Definition is_upper (c : ascii) : bool := in_range 65 90 c.
Definition is_lower (c : ascii) : bool := in_range 97 122 c.
Definition isalpha (c : ascii) : bool := is_upper c || is_lower c.

(** the blanks [int] strips: tab, line feed, vertical tab, form feed,
    carriage return and the space *)
Definition isspace (c : ascii) : bool := in_range 9 13 c || (code c =? 32).

Definition upper_char (c : ascii) : ascii :=
  if is_lower c then ascii_of_nat (nat_of_ascii c - 32) else c.
Definition lower_char (c : ascii) : ascii :=
  if is_upper c then ascii_of_nat (nat_of_ascii c + 32) else c.

Fixpoint map (f : ascii -> ascii) (s : string) : string :=
  match s with
  | EmptyString => EmptyString
  | String c r => String (f c) (map f r)
  end.

(** [s.upper()], [s.lower()] *)
Definition upper (s : string) : string := map upper_char s.
Definition lower (s : string) : string := map lower_char s.

(** [len(s)] *)
Definition len (s : string) : Z := Z.of_nat (String.length s).

(** [s.startswith(p)] *)
Definition startswith (s p : string) : bool := String.prefix p s.

(** [sub in s] *)
Fixpoint contains (sub s : string) : bool :=
  String.prefix sub s ||
  match s with
  | EmptyString => false
  | String _ r => contains sub r
  end.

(** [c in s] for a one-character [c] *)
Fixpoint has_char (c : ascii) (s : string) : bool :=
  match s with
  | EmptyString => false
  | String d r => Ascii.eqb c d || has_char c r
  end.

(** [s.split(c)[0]]: what stands before the first [c], the whole of [s]
    when there is none *)
Fixpoint before_first (c : ascii) (s : string) : string :=
  match s with
  | EmptyString => EmptyString
  | String d r => if Ascii.eqb c d then EmptyString else String d (before_first c r)
  end.

(** [s[:n]] *)
Definition take (n : nat) (s : string) : string := String.substring 0 n s.

(** [bool(s)]: a string is true when it is not empty *)
Definition truthy (s : string) : bool :=
  match s with EmptyString => false | String _ _ => true end.

(** [str(n)] for an integer *)
Definition of_int (n : Z) : string := NilEmpty.string_of_int (Z.to_int n).

Definition digit_value (c : ascii) : Z := code c - 48.

(** *** [int(s)] in base ten

    Blanks are stripped at both ends, one sign is accepted, and the
    digits may be separated by single underscores.  [None] stands for
    the [ValueError]. *)

Fixpoint lstrip (s : string) : string :=
  match s with
  | String c r => if isspace c then lstrip r else s
  | EmptyString => EmptyString
  end.

Fixpoint all_space (s : string) : bool :=
  match s with
  | String c r => isspace c && all_space r
  | EmptyString => true
  end.

Definition is_underscore (c : ascii) : bool := code c =? 95.

(** Reads digits and underscores from the front of [s]: the value read so
    far is [acc], the number of digits [n], and [prev] tells whether the
    last character was an underscore.  Gives the value, the number of
    digits and what is left. *)
Fixpoint scan_digits (s : string) (prev : bool) (acc n : Z)
  : option (Z * Z * string) :=
  match s with
  | String c r =>
      if isdigit c then scan_digits r false (10 * acc + digit_value c) (n + 1)
      else if is_underscore c then
        (if prev then None else scan_digits r true acc n)
      else (if prev then None else Some (acc, n, s))
  | EmptyString => if prev then None else Some (acc, n, s)
  end.

(** the default of [sys.get_int_max_str_digits()] *)
Definition int_max_str_digits : Z := 4300.

Definition int_unsigned (s : string) : option Z :=
  match s with
  | EmptyString => None
  | String c _ =>
      if is_underscore c then None
      else
        match scan_digits s false 0 0 with
        | Some (v, n, rest) =>
            if (n =? 0) || negb (all_space rest) || (int_max_str_digits <? n)
            then None else Some v
        | None => None
        end
  end.

Definition int (s : string) : option Z :=
  match lstrip s with
  | String "+" r => int_unsigned r
  | String "-" r => option_map Z.opp (int_unsigned r)
  | t => int_unsigned t
  end.




End PyStr.

(** ** Dates and times *)

Module PyTime.

Definition is_leap (y : Z) : bool :=
  (y mod 4 =? 0) && (negb (y mod 100 =? 0) || (y mod 400 =? 0)).

Definition days_in_month (y m : Z) : Z :=
  if m =? 2 then (if is_leap y then 29 else 28)
  else if (m =? 4) || (m =? 6) || (m =? 9) || (m =? 11) then 30
  else 31.

(** days in the years before year [y] *)
Definition days_before_year (y : Z) : Z :=
  let p := y - 1 in p * 365 + p / 4 - p / 100 + p / 400.

(** days of year [y] before the first of month [m] *)
Fixpoint days_before_month_aux (y : Z) (k : nat) : Z :=
  match k with
  | O => 0
  | S k' => days_before_month_aux y k' + days_in_month y (Z.of_nat k)
  end.
Definition days_before_month (y m : Z) : Z :=
  days_before_month_aux y (Z.to_nat (m - 1)).

(** the proleptic Gregorian ordinal, 0001-01-01 being day 1 *)
Definition ymd2ord (y m d : Z) : Z :=
  days_before_year y + days_before_month y m + d.

Definition us_per_hour : Z := 3600 * 1000000.
Definition us_per_day : Z := 24 * us_per_hour.

Definition MINYEAR : Z := 1.
Definition MAXYEAR : Z := 9999.
Definition max_ordinal : Z := 3652059.

(** 9999-12-31T23:59:59.999999 *)
Definition datetime_max : Z := max_ordinal * us_per_day - 1.

(** midnight at the start of a calendar day *)
Definition midnight (y m d : Z) : Z := (ymd2ord y m d - 1) * us_per_day.

(** [datetime(y, m, d)]: [None] for the [ValueError] of a day that does
    not exist *)
Definition datetime_of_date (y m d : Z) : option Z :=
  if (MINYEAR <=? y) && (y <=? MAXYEAR) && (1 <=? m) && (m <=? 12)
     && (1 <=? d) && (d <=? days_in_month y m)
  then Some (midnight y m d)
  else None.

(** [timedelta(days=d, hours=h)], in microseconds; [None] for the
    [OverflowError] of more than 999999999 days *)
Definition timedelta (days hours : Z) : option Z :=
  let us := days * us_per_day + hours * us_per_hour in
  if Z.abs (us / us_per_day) <=? 999999999 then Some us else None.

(** [t + delta]; [None] for the [OverflowError] of a result outside
    years 1 to 9999 *)
Definition add (t delta : Z) : option Z :=
  let r := t + delta in
  if (0 <=? r) && (r <=? datetime_max) then Some r else None.

End PyTime.

(** ** [datetime.strptime(s, '%Y-%m-%d')] *)

Module Strptime.
Import PyStr.

(** One alternative of a group of the pattern: the text it matches at the
    front of the input and what follows it. *)
Definition alt := string -> option (string * string).

Definition is_char (a : ascii) (c : ascii) : bool := Ascii.eqb a c.

Definition one (p : ascii -> bool) : alt := fun s =>
  match s with
  | String a r => if p a then Some (String a EmptyString, r) else None
  | EmptyString => None
  end.

Definition two (p q : ascii -> bool) : alt := fun s =>
  match s with
  | String a (String b r) =>
      if p a && q b then Some (String a (String b EmptyString), r) else None
  | _ => None
  end.

Definition four (p : ascii -> bool) : alt := fun s =>
  match s with
  | String a (String b (String c (String d r))) =>
      if p a && p b && p c && p d
      then Some (String a (String b (String c (String d EmptyString))), r)
      else None
  | _ => None
  end.

(** [%Y] is [\d\d\d\d] *)
Definition group_Y : list alt := [four isdigit].

(** [%m] is [1[0-2]|0[1-9]|[1-9]] *)
Definition group_m : list alt :=
  [ two (is_char "1") (in_range 48 50);
    two (is_char "0") (in_range 49 57);
    one (in_range 49 57) ].

(** [%d] is [3[01]|[12]\d|0[1-9]|[1-9]| [1-9]] *)
Definition group_d : list alt :=
  [ two (is_char "3") (in_range 48 49);
    two (in_range 49 50) isdigit;
    two (is_char "0") (in_range 49 57);
    one (in_range 49 57);
    two (is_char " ") (in_range 49 57) ].

(** A group followed by the rest [k] of the pattern: the alternatives
    are tried in order, and the first one after which [k] succeeds
    is taken. *)
Fixpoint group {A : Type} (alts : list alt) (k : string -> string -> option A)
         (s : string) : option A :=
  match alts with
  | [] => None
  | a :: more =>
      match a s with
      | Some (txt, rest) =>
          match k txt rest with
          | Some x => Some x
          | None => group more k s
          end
      | None => group more k s
      end
  end.

Definition dash {A : Type} (k : string -> option A) (s : string) : option A :=
  match s with
  | String "-" r => k r
  | _ => None
  end.

(** The match of [%Y-%m-%d] at the front of [s]: the three groups and the
    text the pattern did not reach. *)
Definition regex_match (s : string) : option (string * string * string * string) :=
  group group_Y (fun Y => dash (
  group group_m (fun m => dash (
  group group_d (fun d rest => Some (Y, m, d, rest)))))) s.

(** [None] stands for the [ValueError] of a string that does not match,
    of text left after the match, or of a day that does not exist. *)
Definition strptime (s : string) : option Z :=
  match regex_match s with
  | Some (Y, m, d, EmptyString) =>
      match int Y, int m, int d with
      | Some year, Some month, Some day => PyTime.datetime_of_date year month day
      | _, _, _ => None
      end
  | _ => None
  end.

End Strptime.

(** ** The authenticity rule engine: [verify_medicine_authenticity] *)

Module Authenticity.
Import PyStr.

(** [barcode_data] *)
Record ScanResult := {
  codes : list string;
  batch : string;
  expiry : string;
  manufacturer : string
}.

Inductive Status := valid | fake | suspicious.

Definition status_eqb (a b : Status) : bool :=
  match a, b with
  | valid, valid | fake, fake | suspicious, suspicious => true
  | _, _ => false
  end.

(** The messages the function appends to [details], one constructor per
    [details.append] of the source, with the text it interpolates. *)
Inductive Detail :=
| ValidFormat
| Counterfeit
| ScanError
| Recognized (code20 : string)
| NoBarcode
| BatchValid (batch : string)
| BatchUnusual (batch : string)
| ExpiryValid (expiry : string)
| Expired (expiry : string)
| ExpiryUnparsed (expiry : string)
| Manufacturer (manufacturer : string)
| UnableToVerify
| Inconclusive.

(** the text of a message, as UTF-8 *)
Definition render (d : Detail) : string :=
  match d with
  | ValidFormat => "✓ Valid MediGuard barcode format detected"
  | Counterfeit => "✗ Counterfeited medicine pattern detected"
  | ScanError => "⚠ Error scanning barcode - unable to verify"
  | Recognized c => "✓ Barcode recognized: " ++ c
  | NoBarcode => "⚠ No barcode detected in image"
  | BatchValid b => "✓ Batch format valid: " ++ b
  | BatchUnusual b => "⚠ Batch format unusual: " ++ b
  | ExpiryValid e => "✓ Expiry valid until " ++ e
  | Expired e => "✗ Medicine already expired on " ++ e
  | ExpiryUnparsed e => "⚠ Could not parse expiry date: " ++ e
  | Manufacturer m => "✓ Manufacturer: " ++ m
  | UnableToVerify => "Unable to verify. Recommend checking with pharmacist."
  | Inconclusive => "Verification inconclusive. Check with pharmacist if unsure."
  end.


(** the local variables [status], [confidence] and [details] *)
Record State := {
  status : Status;
  confidence : Z;
  details : list Detail
}.

Definition append (d : Detail) (st : State) : State :=
  {| status := status st; confidence := confidence st;
     details := (details st ++ [d])%list |}.

Definition set_status (x : Status) (st : State) : State :=
  {| status := x; confidence := confidence st; details := details st |}.

Definition set_confidence (c : Z) (st : State) : State :=
  {| status := status st; confidence := c; details := details st |}.

Definition init : State :=
  {| status := suspicious; confidence := 50; details := [] |}.

Definition has_valid_marker (code : string) : bool :=
  contains "MG-VALID" code || startswith code "VALID".

Definition has_fake_marker (code : string) : bool :=
  contains "FAKE" code || contains "FRAUD" code || contains "TEST-FAKE" code.

Definition has_error_marker (code : string) : bool :=
  contains "ERROR" code.

(** Rule 1: the first code *)
Definition rule1 (scan : ScanResult) (st : State) : State :=
  match codes scan with
  | c :: _ =>
      let code := upper c in
      if has_valid_marker code then
        append ValidFormat (set_confidence 95 (set_status valid st))
      else if has_fake_marker code then
        append Counterfeit (set_confidence 99 (set_status fake st))
      else if has_error_marker code then
        append ScanError (set_confidence 20 (set_status suspicious st))
      else
        append (Recognized (take 20 code)) (set_confidence 80 (set_status valid st))
  | [] =>
      set_confidence 30 (set_status suspicious (append NoBarcode st))
  end.

Definition batch_present (scan : ScanResult) : bool :=
  truthy (batch scan) && negb (batch scan =? "UNKNOWN")%string.

(** [len(batch) >= 8 and (batch[0].isalpha() or batch[0].isdigit())] *)
Definition batch_well_formed (b : string) : bool :=
  (8 <=? len b) &&
  match b with
  | String c _ => isalpha c || isdigit c
  | EmptyString => false
  end.

(** Rule 2: the batch number *)
Definition rule2 (scan : ScanResult) (st : State) : State :=
  if batch_present scan then
    if batch_well_formed (batch scan) then
      let st := append (BatchValid (batch scan)) st in
      set_confidence (Z.min 95 (confidence st + 10)) st
    else
      let st := append (BatchUnusual (batch scan)) st in
      if 40 <? confidence st
      then set_confidence (Z.max (confidence st - 10) 40) st
      else st
  else st.

Definition expiry_present (scan : ScanResult) : bool :=
  truthy (expiry scan) && negb (expiry scan =? "Not detected")%string.

(** Rule 3: the expiry date, against the reading [now] of the clock *)
Definition rule3 (now : Z) (scan : ScanResult) (st : State) : State :=
  if expiry_present scan then
    match Strptime.strptime (expiry scan) with
    | Some exp_date =>
        if now <? exp_date then
          let st := append (ExpiryValid (expiry scan)) st in
          set_confidence (Z.min 95 (confidence st + 5)) st
        else
          let st := append (Expired (expiry scan)) st in
          set_confidence 95 (set_status fake st)
    | None => append (ExpiryUnparsed (expiry scan)) st
    end
  else st.

Definition manufacturer_known (scan : ScanResult) : bool :=
  truthy (manufacturer scan) && (3 <? len (manufacturer scan))
  && negb (manufacturer scan =? "Unknown")%string.

(** Rule 4: the manufacturer *)
Definition rule4 (scan : ScanResult) (st : State) : State :=
  if manufacturer_known scan then
    let st := append (Manufacturer (manufacturer scan)) st in
    set_confidence (Z.min 95 (confidence st + 5)) st
  else st.

(** Final determination *)
Definition final (st : State) : State :=
  if status_eqb (status st) suspicious then
    if confidence st <? 40 then append UnableToVerify st
    else append Inconclusive st
  else st.

Definition verify_medicine_authenticity (now : Z) (scan : ScanResult) : State :=
  final (rule4 scan (rule3 now scan (rule2 scan (rule1 scan init)))).

Definition status_text (x : Status) : string :=
  match x with
  | valid => "valid"
  | fake => "fake"
  | suspicious => "suspicious"
  end.

(** the tuple [(status, details, confidence)] the function returns *)
Definition returned (st : State) : string * list string * Z :=
  (status_text (status st), List.map render (details st), confidence st).




(** what [scan_qr_barcode] returns when the scan fails *)
Definition error_scan : ScanResult :=
  {| codes := ["ERROR-SCAN"];
     batch := "UNKNOWN";
     expiry := "2025-12-31";
     manufacturer := "Unknown" |}.

(** what [scan_qr_barcode] returns *)
Definition demo_scan : ScanResult :=
  {| codes := ["MG-VALID-ABC123-BATCH2024"];
     batch := "BATCH2024001";
     expiry := "2026-12-31";
     manufacturer := "MediCorp Pharma" |}.

End Authenticity.

(** ** The job table of the scheduler: [schedule_reminder]

    The scheduler is APScheduler's [BackgroundScheduler] with its in-memory
    job store, started as app.py starts it before it serves requests.  The
    store is a table of jobs looked up by their id; the order of the table
    is the order in which the ids were first added. *)

Module Scheduler.
Import PyStr.

(** a job: [notify_user] to be called with [args] at [run_date] *)
Record Job := {
  id : string;
  run_date : Z;
  args : Z * string * Z * Z
}.

Definition JobTable := list Job.

Definition has_id (i : string) (j : Job) : bool := (id j =? i)%string.

Definition lookup_job (i : string) (t : JobTable) : option Job :=
  List.find (has_id i) t.

(** the live jobs of the table that carry id [i] *)
Definition live_jobs (i : string) (t : JobTable) : list Job :=
  List.filter (has_id i) t.

(** [store.add_job(job)]: [None] for [ConflictingIdError] *)
Definition store_add_job (job : Job) (t : JobTable) : option JobTable :=
  match lookup_job (id job) t with
  | Some _ => None
  | None => Some (t ++ [job])%list
  end.

(** [store.update_job(job)] *)
Definition store_update_job (job : Job) (t : JobTable) : JobTable :=
  List.map (fun j => if has_id (id job) j then job else j) t.

(** [store.remove_job(job_id)]: [None] for [JobLookupError] *)
Definition store_remove_job (i : string) (t : JobTable) : option JobTable :=
  match lookup_job i t with
  | Some _ => Some (List.filter (fun j => negb (has_id i j)) t)
  | None => None
  end.

(** [scheduler.add_job(..., id=job_id, replace_existing=...)]: the job is
    added, and a job that is there under the same id is replaced when
    [replace_existing] is set; [None] for the [ConflictingIdError]
    otherwise. *)
Definition add_job (job : Job) (replace_existing : bool) (t : JobTable)
  : option JobTable :=
  match store_add_job job t with
  | Some t' => Some t'
  | None => if replace_existing then Some (store_update_job job t) else None
  end.

Definition job_id (reminder_id : Z) : string := "reminder_" ++ of_int reminder_id.

(** an exception of [add_job] is logged and the table left as it is *)
Definition schedule_reminder (reminder_id : Z) (medicine_name : string)
           (user_id : Z) (scheduled_time : Z) (t : JobTable) : JobTable :=
  let trigger := scheduled_time in
  let job := {| id := job_id reminder_id;
                run_date := trigger;
                args := (reminder_id, medicine_name, user_id, scheduled_time) |} in
  match add_job job true t with
  | Some t' => t'
  | None => t
  end.

Definition unschedule_reminder (reminder_id : Z) (t : JobTable) : JobTable :=
  match store_remove_job (job_id reminder_id) t with
  | Some t' => t'
  | None => t
  end.

(** no two jobs of the table share an id *)
Definition unique_ids (t : JobTable) : Prop := NoDup (List.map id t).

End Scheduler.

(** ** The reminder generator: [generate_medicine_reminders] *)

Module Reminders.
Import PyStr.

(** a [Reminder] row before it has an id *)
Record Reminder := {
  medicine_id : Z;
  user_id : Z;
  reminder_time : Z;
  status : string
}.

(** Parse timing: lines 307 to 312 *)
Definition parse_times_per_day (timing : string) : Z :=
  let times_per_day := 1 in
  if has_char "x" (lower timing) then
    match int (before_first "x" (lower timing)) with
    | Some n => n
    | None => 1
    end
  else times_per_day.

(** [range(n)] *)
Definition range (n : Z) : list Z :=
  List.map Z.of_nat (List.seq 0 (Z.to_nat n)).

(** A [for] loop whose body may raise: the exception ([None]) ends it. *)
Fixpoint for_each {A S : Type} (xs : list A) (body : A -> S -> option S) (s : S)
  : option S :=
  match xs with
  | [] => Some s
  | x :: more =>
      match body x s with
      | Some s' => for_each more body s'
      | None => None
      end
  end.

Definition hour_of (times_per_day slot : Z) : Z :=
  6 + slot * (16 / Z.max 1 times_per_day).

(** the body of the inner loop, for one [day] and one [slot]; [utcnow] is
    the reading of [datetime.utcnow()] the comparison makes *)
Definition slot_body (medicine_id user_id times_per_day start_date : Z)
           (utcnow : Z -> Z -> Z) (day slot : Z) (reminders_to_create : list Reminder)
  : option (list Reminder) :=
  let hour := hour_of times_per_day slot in
  match PyTime.timedelta day hour with
  | None => None
  | Some delta =>
      match PyTime.add start_date delta with
      | None => None
      | Some reminder_time =>
          if utcnow day slot <? reminder_time then
            Some (reminders_to_create ++
                    [ {| medicine_id := medicine_id; user_id := user_id;
                         reminder_time := reminder_time; status := "pending" |} ])%list
          else Some reminders_to_create
      end
  end.

(** the pending reminder of a slot, [hour] hours into day [day] after
    [start_date] *)
Definition slot_reminder (medicine_id user_id start_date day hour : Z) : Reminder :=
  {| medicine_id := medicine_id; user_id := user_id;
     reminder_time :=
       start_date + day * PyTime.us_per_day + hour * PyTime.us_per_hour;
     status := "pending" |}.

(** what one turn of the inner loop adds to the list when nothing raises:
    the reminder of the slot when its time is after the reading of the
    clock, nothing otherwise *)
Definition kept (medicine_id user_id start_date : Z) (utcnow : Z -> Z -> Z)
           (day slot hour : Z) : list Reminder :=
  let r := slot_reminder medicine_id user_id start_date day hour in
  if utcnow day slot <? reminder_time r then [r] else [].

(** [r] is the reminder of a slot of the schedule whose time is after the
    reading of the clock made for it, and after [start_date] *)
Definition future_slot (medicine_id user_id times_per_day duration_days start_date : Z)
           (utcnow : Z -> Z -> Z) (r : Reminder) : Prop :=
  exists day slot,
    0 <= day < duration_days /\ 0 <= slot < times_per_day
    /\ r = slot_reminder medicine_id user_id start_date day
                         (hour_of times_per_day slot)
    /\ utcnow day slot < reminder_time r
    /\ start_date < reminder_time r.

(** Lines 307 to 331: the list [reminders_to_create] when the loops end,
    [None] when one of them raised.  [start_date] is the reading of
    [datetime.now()]. *)
Definition reminders_to_create (medicine_id user_id : Z) (timing : string)
           (duration_days : Z) (start_date : Z) (utcnow : Z -> Z -> Z)
  : option (list Reminder) :=
  let times_per_day := parse_times_per_day timing in
  for_each (range duration_days)
    (fun day =>
       for_each (range times_per_day)
         (slot_body medicine_id user_id times_per_day start_date utcnow day))
    [].

(** The persisted rows the function reads and writes: the names of the
    medicines by id, the reminders by id, and the id the next reminder
    gets. *)
Record Store := {
  medicines : list (Z * string);
  reminders : list (Z * Reminder);
  next_reminder_id : Z
}.

Definition medicine_name (medicine_id : Z) (db : Store) : option string :=
  option_map snd (List.find (fun m => fst m =? medicine_id) (medicines db)).

(** [db.session.add_all(rs); db.session.commit()]: the rows with the ids
    they were given, and the store with them *)
Fixpoint add_all (rs : list Reminder) (db : Store) : list (Z * Reminder) * Store :=
  match rs with
  | [] => ([], db)
  | r :: more =>
      let row := (next_reminder_id db, r) in
      let db' := {| medicines := medicines db;
                    reminders := (reminders db ++ [row])%list;
                    next_reminder_id := next_reminder_id db + 1 |} in
      let (rows, db'') := add_all more db' in
      (row :: rows, db'')
  end.

Definition schedule_all (name : string) (user_id : Z) (rows : list (Z * Reminder))
           (jobs : Scheduler.JobTable) : Scheduler.JobTable :=
  List.fold_left
    (fun t row => Scheduler.schedule_reminder (fst row) name user_id
                    (reminder_time (snd row)) t)
    rows jobs.

(** The whole function, on the store and the job table. *)
Definition generate_medicine_reminders (start_date : Z) (utcnow : Z -> Z -> Z)
           (medicine_id user_id : Z) (timing : string) (duration_days : Z)
           (w : Store * Scheduler.JobTable) : Store * Scheduler.JobTable :=
  let (db, jobs) := w in
  match medicine_name medicine_id db with
  | None => w
  | Some name =>
      match reminders_to_create medicine_id user_id timing duration_days
                                start_date utcnow with
      | None => w
      | Some [] => w
      | Some rs =>
          let (rows, db') := add_all rs db in
          (db', schedule_all name user_id rows jobs)
      end
  end.

End Reminders.

(** ** More of Python's strings: [strip], [split], [join], [rsplit] *)

Module PyText.
Import PyStr.

(** [c.isspace()]: the blanks [strip()] and [split()] take away *)
Definition is_blank (c : ascii) : bool := in_range 9 13 c || in_range 28 32 c.

Fixpoint lstrip_blank (s : string) : string :=
  match s with
  | String c r => if is_blank c then lstrip_blank r else s
  | EmptyString => EmptyString
  end.

Fixpoint rstrip_blank (s : string) : string :=
  match s with
  | EmptyString => EmptyString
  | String c r =>
      match rstrip_blank r with
      | EmptyString => if is_blank c then EmptyString else String c EmptyString
      | r' => String c r'
      end
  end.

(** [s.strip()] *)
Definition strip (s : string) : string := rstrip_blank (lstrip_blank s).

(** [s.split(c)] for a one-character separator: never the empty list *)
Fixpoint split_on (c : ascii) (s : string) : list string :=
  match s with
  | EmptyString => [EmptyString]
  | String d r =>
      if Ascii.eqb d c then EmptyString :: split_on c r
      else
        match split_on c r with
        | w :: ws => String d w :: ws
        | [] => [String d EmptyString]
        end
  end.

(** [s.split()]: the maximal runs of characters that are not blank *)
Fixpoint words (s : string) : list string :=
  match s with
  | EmptyString => []
  | String c r =>
      if is_blank c then words r
      else
        match r with
        | EmptyString => [String c EmptyString]
        | String d _ =>
            if is_blank d then String c EmptyString :: words r
            else
              match words r with
              | w :: ws => String c w :: ws
              | [] => [String c EmptyString]
              end
        end
  end.

(** [sep.join(ws)] *)
Fixpoint join (sep : string) (ws : list string) : string :=
  match ws with
  | [] => EmptyString
  | [w] => w
  | w :: more => w ++ sep ++ join sep more
  end.

(** [s.rsplit(c, 1)[1]]: what stands after the last [c]; [None] for the
    [IndexError] of a string without [c] *)
Fixpoint after_last (c : ascii) (s : string) : option string :=
  match s with
  | EmptyString => None
  | String d r =>
      match after_last c r with
      | Some x => Some x
      | None => if Ascii.eqb d c then Some r else None
      end
  end.

(** [x in xs] for a collection of strings *)
Definition mem (x : string) (xs : list string) : bool :=
  List.existsb (String.eqb x) xs.

End PyText.

(** ** Uploads and OCR: [allowed_file], [parse_medicines_from_text],
    [extract_from_prescription], [scan_qr_barcode] *)

Module Upload.
Import PyStr PyText.

Definition ALLOWED_EXTENSIONS : list string := ["png"; "jpg"; "jpeg"; "gif"; "bmp"].

(** ['.' in filename and filename.rsplit('.', 1)[1].lower() in
    ALLOWED_EXTENSIONS] *)
Definition allowed_file (filename : string) : bool :=
  has_char "." filename &&
  match after_last "." filename with
  | Some ext => mem (lower ext) ALLOWED_EXTENSIONS
  | None => false
  end.

(** a medicine as the parser returns it *)
Record MedicineData := {
  name : string;
  dosage : string;
  timing : string;
  duration : Z
}.

Definition keywords : list string := ["mg"; "tablet"; "cap"; "dose"; "mcg"; "ml"].

(** the body of the loop of [parse_medicines_from_text] for one line: the
    medicine it appends, if any *)
Definition parse_line (line : string) : list MedicineData :=
  let line := strip line in
  if negb (truthy line) || (len line <? 3) then []
  else if List.existsb (fun keyword => contains keyword (lower line)) keywords then
    let name_part := List.firstn 2 (words line) in
    let name := match name_part with
                | [] => "Unknown Medicine"
                | _ => join " " name_part
                end in
    [ {| name := take 100 name; dosage := "500mg"; timing := "2x/day";
         duration := 7 |} ]
  else [].

Definition newline : ascii := ascii_of_nat 10.

Definition parse_medicines_from_text (text : string) : list MedicineData :=
  let lines := split_on newline text in
  List.flat_map parse_line lines.

Definition sample_medicine : MedicineData :=
  {| name := "Sample Medicine"; dosage := "500mg"; timing := "2x/day";
     duration := 7 |}.

Definition ocr_placeholder : string :=
  "OCR extraction not available. Please install EasyOCR or Tesseract.".

(** [extract_from_prescription]: [easyocr] and [tesseract] are the texts
    the two readers give for the image, [None] when the reader is not
    installed or raises.  The result is the pair of ['raw_text'] and
    ['medicines']. *)
Definition extract_from_prescription (easyocr tesseract : option string)
  : string * list MedicineData :=
  let raw_text := EmptyString in
  let raw_text := match easyocr with Some t => t | None => raw_text end in
  let raw_text :=
    if negb (truthy raw_text) then
      match tesseract with Some t => t | None => raw_text end
    else raw_text in
  let raw_text := if negb (truthy raw_text) then ocr_placeholder else raw_text in
  let medicines := parse_medicines_from_text raw_text in
  (raw_text, match medicines with [] => [sample_medicine] | _ => medicines end).

(** [scan_qr_barcode]: the same scan for every image *)
Definition scan_qr_barcode (image_path : string) : Authenticity.ScanResult :=
  Authenticity.demo_scan.

End Upload.

(** ** The job table, continued: sequences of calls and the recovery at
    start: [reschedule_existing_reminders] *)

Module Recovery.
Import Scheduler.




(** the job [schedule_reminder] builds *)
Definition job_of (reminder_id : Z) (medicine_name : string) (user_id : Z)
           (scheduled_time : Z) : Job :=
  {| id := job_id reminder_id; run_date := scheduled_time;
     args := (reminder_id, medicine_name, user_id, scheduled_time) |}.


(** the rows of the query: pending reminders whose time is after [now] *)
Definition pending_reminders (now : Z) (db : Reminders.Store)
  : list (Z * Reminders.Reminder) :=
  List.filter
    (fun row => (Reminders.status (snd row) =? "pending")%string
                && (now <? Reminders.reminder_time (snd row)))
    (Reminders.reminders db).

(** the loop over the rows; a reminder without its medicine raises on
    [medicine.name], which ends the loop with the jobs scheduled so far *)
Fixpoint reschedule_loop (db : Reminders.Store)
         (rows : list (Z * Reminders.Reminder)) (jobs : JobTable) : JobTable :=
  match rows with
  | [] => jobs
  | (rid, r) :: more =>
      match Reminders.medicine_name (Reminders.medicine_id r) db with
      | None => jobs
      | Some name =>
          reschedule_loop db more
            (schedule_reminder rid name (Reminders.user_id r)
                               (Reminders.reminder_time r) jobs)
      end
  end.

(** [now] is the reading of [datetime.utcnow()] *)
Definition reschedule_existing_reminders (now : Z) (db : Reminders.Store)
           (jobs : JobTable) : JobTable :=
  reschedule_loop db (pending_reminders now db) jobs.

(** a store with one medicine and three reminders of user 1: one pending
    at time 200, one pending at time 50, one taken at time 300 *)
Definition small_store : Reminders.Store :=
  {| Reminders.medicines := [(5, "Aspirin")];
     Reminders.reminders :=
       [ (1, {| Reminders.medicine_id := 5; Reminders.user_id := 1;
                Reminders.reminder_time := 200; Reminders.status := "pending" |});
         (2, {| Reminders.medicine_id := 5; Reminders.user_id := 1;
                Reminders.reminder_time := 50; Reminders.status := "pending" |});
         (3, {| Reminders.medicine_id := 5; Reminders.user_id := 1;
                Reminders.reminder_time := 300; Reminders.status := "taken" |}) ];
     Reminders.next_reminder_id := 4 |}.

End Recovery.

(** ** The reminder routes: [mark_reminder_taken], [skip_reminder] *)

Module Routes.
Import PyStr.

(** what a route answers *)
Inductive Response :=
| RedirectLogin
| NotFound
| Unauthorized
| Success (message : string).

(** two digits, as [%H] and [%M] write them *)
Definition two_digits (n : Z) : string :=
  (if n <? 10 then "0" else EmptyString) ++ of_int n.

(** [t.strftime("%H:%M")] *)
Definition strftime_HM (t : Z) : string :=
  two_digits ((t / PyTime.us_per_hour) mod 24) ++ ":"
  ++ two_digits ((t / (60 * 1000000)) mod 60).

(** [Reminder.query.get(id)] *)
Definition get_reminder (rid : Z) (db : Reminders.Store) : option Reminders.Reminder :=
  option_map snd (List.find (fun row => fst row =? rid) (Reminders.reminders db)).

(** [reminder.status = s; db.session.commit()] for the reminder of id [rid] *)
Definition set_reminder_status (rid : Z) (s : string) (db : Reminders.Store)
  : Reminders.Store :=
  {| Reminders.medicines := Reminders.medicines db;
     Reminders.reminders :=
       List.map
         (fun row =>
            if fst row =? rid then
              (fst row,
               {| Reminders.medicine_id := Reminders.medicine_id (snd row);
                  Reminders.user_id := Reminders.user_id (snd row);
                  Reminders.reminder_time := Reminders.reminder_time (snd row);
                  Reminders.status := s |})
            else row)
         (Reminders.reminders db);
     Reminders.next_reminder_id := Reminders.next_reminder_id db |}.

Definition World : Type := Reminders.Store * Scheduler.JobTable.

(** the part the two routes share: [login_required], the lookup of the
    reminder, the check of its owner, the new status and the removal of
    the job; [session] is [session.get('user_id')], [None] when nobody is
    logged in.  The commit is taken to succeed: a store that refuses it is
    not modelled. *)
Definition close_reminder (new_status : string)
           (message : Reminders.Reminder -> string)
           (session : option Z) (rid : Z) (w : World) : Response * World :=
  match session with
  | None => (RedirectLogin, w)
  | Some user_id =>
      match get_reminder rid (fst w) with
      | None => (NotFound, w)
      | Some reminder =>
          if negb (Reminders.user_id reminder =? user_id) then (Unauthorized, w)
          else
            (Success (message reminder),
             (set_reminder_status rid new_status (fst w),
              Scheduler.unschedule_reminder rid (snd w)))
      end
  end.

(** [r] with the status [s] *)
Definition with_status (s : string) (r : Reminders.Reminder) : Reminders.Reminder :=
  {| Reminders.medicine_id := Reminders.medicine_id r;
     Reminders.user_id := Reminders.user_id r;
     Reminders.reminder_time := Reminders.reminder_time r;
     Reminders.status := s |}.

(** [w'] is [w] with reminder [rid] given the status [s] and its job
    removed, and nothing else changed *)
Definition closed (s : string) (rid : Z) (w w' : World) : Prop :=
  get_reminder rid (fst w') = option_map (with_status s) (get_reminder rid (fst w))
  /\ (forall other, other <> rid ->
                    get_reminder other (fst w') = get_reminder other (fst w))
  /\ Scheduler.live_jobs (Scheduler.job_id rid) (snd w') = []
  /\ (forall other, other <> rid ->
                    Scheduler.live_jobs (Scheduler.job_id other) (snd w')
                    = Scheduler.live_jobs (Scheduler.job_id other) (snd w)).

Definition mark_reminder_taken : option Z -> Z -> World -> Response * World :=
  close_reminder "taken"
    (fun reminder =>
       "Reminder marked as taken at "
       ++ strftime_HM (Reminders.reminder_time reminder)).

Definition skip_reminder : option Z -> Z -> World -> Response * World :=
  close_reminder "skipped" (fun _ => "Reminder skipped").

End Routes.

(** ** Accounts: [signup], [login]

    [generate_password_hash] and [check_password_hash] are werkzeug's; they
    are arguments of the model. *)

Module Accounts.
Import PyStr PyText.

Record User := {
  id : Z;
  name : string;
  username : string;
  email : string;
  password_hash : string
}.

(** the table of users and the id the next user gets *)
Record Users := {
  users : list User;
  next_user_id : Z
}.

(** what a route leaves behind: the message it flashes and the page it
    sends to *)
Record Answer := {
  flash : string;
  page : string
}.

(** [User.query.filter_by(username=u).first()] *)
Definition by_username (u : string) (db : Users) : option User :=
  List.find (fun x => (username x =? u)%string) (users db).

(** [User.query.filter_by(email=e).first()] *)
Definition by_email (e : string) (db : Users) : option User :=
  List.find (fun x => (email x =? e)%string) (users db).

Definition is_some {A : Type} (o : option A) : bool :=
  match o with Some _ => true | None => false end.

(** the POST branch of [signup], on the fields of the form *)
Definition signup (generate_password_hash : string -> string)
           (form_name form_username form_email password confirm_password : string)
           (db : Users) : Answer * Users :=
  let name := strip form_name in
  let username := strip form_username in
  let email := strip form_email in
  if negb (List.forallb truthy [name; username; email; password; confirm_password])
  then ({| flash := "All fields are required."; page := "signup" |}, db)
  else if negb (password =? confirm_password)%string
  then ({| flash := "Passwords do not match."; page := "signup" |}, db)
  else if len password <? 6
  then ({| flash := "Password must be at least 6 characters."; page := "signup" |}, db)
  else if is_some (by_username username db)
  then ({| flash := "Username already exists."; page := "signup" |}, db)
  else if is_some (by_email email db)
  then ({| flash := "Email already registered."; page := "signup" |}, db)
  else
    let user := {| id := next_user_id db; name := name; username := username;
                   email := email;
                   password_hash := generate_password_hash password |} in
    ({| flash := "Signup successful! Please log in."; page := "login" |},
     {| users := (users db ++ [user])%list;
        next_user_id := next_user_id db + 1 |}).



End Accounts.

(** * Properties of the rule engine *)

Module AuthenticityFacts.
Import PyStr Authenticity.

(** ** What each rule does to the status *)

Lemma rule2_status scan st : status (rule2 scan st) = status st.
Proof.
  unfold rule2.
  destruct (batch_present scan); [|reflexivity].
  destruct (batch_well_formed (batch scan)); simpl; [reflexivity|].
  destruct (40 <? confidence st); reflexivity.
Qed.


Lemma rule4_status scan st : status (rule4 scan st) = status st.
Proof. unfold rule4. destruct (manufacturer_known scan); reflexivity. Qed.

Lemma final_status st : status (final st) = status st.
Proof.
  unfold final.
  destruct (status_eqb (status st) suspicious); [|reflexivity].
  destruct (confidence st <? 40); reflexivity.
Qed.

Lemma final_confidence st : confidence (final st) = confidence st.
Proof.
  unfold final.
  destruct (status_eqb (status st) suspicious); [|reflexivity].
  destruct (confidence st <? 40); reflexivity.
Qed.

(** ** A date that parses is present *)

Lemma strptime_nonempty e t : Strptime.strptime e = Some t -> truthy e = true.
Proof. destruct e; [discriminate|reflexivity]. Qed.

Lemma strptime_not_placeholder e t :
  Strptime.strptime e = Some t -> (e =? "Not detected")%string = false.
Proof.
  intros H. destruct (String.eqb_spec e "Not detected") as [->|]; [|reflexivity].
  vm_compute in H. discriminate.
Qed.

Lemma strptime_present scan t :
  Strptime.strptime (expiry scan) = Some t -> expiry_present scan = true.
Proof.
  intros H. unfold expiry_present.
  rewrite (strptime_nonempty _ _ H), (strptime_not_placeholder _ _ H). reflexivity.
Qed.

(** ** The expiry rule *)

Lemma rule3_expired now scan st exp_date :
  Strptime.strptime (expiry scan) = Some exp_date -> exp_date <= now ->
  status (rule3 now scan st) = fake /\ confidence (rule3 now scan st) = 95.
Proof.
  intros Hp Hle. unfold rule3.
  rewrite (strptime_present _ _ Hp), Hp.
  destruct (Z.ltb_spec now exp_date); [lia|]. split; reflexivity.
Qed.


Lemma rule4_confidence scan st :
  confidence (rule4 scan st)
  = if manufacturer_known scan then Z.min 95 (confidence st + 5) else confidence st.
Proof. unfold rule4. destruct (manufacturer_known scan); reflexivity. Qed.

Lemma rule2_confidence scan st :
  confidence (rule2 scan st)
  = if batch_present scan then
      if batch_well_formed (batch scan) then Z.min 95 (confidence st + 10)
      else if 40 <? confidence st then Z.max (confidence st - 10) 40
           else confidence st
    else confidence st.
Proof.
  unfold rule2. destruct (batch_present scan); [|reflexivity].
  destruct (batch_well_formed (batch scan)); [reflexivity|]. simpl.
  destruct (40 <? confidence st); reflexivity.
Qed.

(** ** The first rule *)



Lemma rule1_confidence_range scan st :
  20 <= confidence (rule1 scan st) <= 99.
Proof.
  unfold rule1. destruct (codes scan) as [|c rest]; [simpl; lia|].
  destruct (has_valid_marker (upper c)); [simpl; lia|].
  destruct (has_fake_marker (upper c)); [simpl; lia|].
  destruct (has_error_marker (upper c)); simpl; lia.
Qed.

Lemma rule2_confidence_range scan st lo :
  lo <= 40 -> lo <= confidence st <= 99 -> lo <= confidence (rule2 scan st) <= 99.
Proof.
  intros Hlo H. rewrite rule2_confidence.
  destruct (batch_present scan); [|lia].
  destruct (batch_well_formed (batch scan)); [lia|].
  destruct (Z.ltb_spec 40 (confidence st)); lia.
Qed.

Lemma rule3_confidence_range now scan st lo :
  lo <= 95 -> lo <= confidence st <= 99 -> lo <= confidence (rule3 now scan st) <= 99.
Proof.
  intros Hlo H. unfold rule3.
  destruct (expiry_present scan); [|lia].
  destruct (Strptime.strptime (expiry scan)) as [exp_date|]; [|simpl; lia].
  destruct (now <? exp_date); simpl; lia.
Qed.

Lemma rule4_confidence_range scan st lo :
  lo <= 95 -> lo <= confidence st <= 99 -> lo <= confidence (rule4 scan st) <= 99.
Proof.
  intros Hlo H. rewrite rule4_confidence. destruct (manufacturer_known scan); lia.
Qed.

(** The confidence of the result: never below 20, never above 99. *)
Lemma confidence_range now scan :
  20 <= confidence (verify_medicine_authenticity now scan) <= 99.
Proof.
  unfold verify_medicine_authenticity. rewrite final_confidence.
  apply rule4_confidence_range; [lia|].
  apply rule3_confidence_range; [lia|].
  apply rule2_confidence_range; [lia|].
  apply rule1_confidence_range.
Qed.

(** C1. A scan whose expiry parses as a date that is not after the clock's
    reading comes out fake with confidence 95, whatever its codes, batch
    and manufacturer are. *)
Theorem expired_scan_is_fake_95 (now : Z) (scan : ScanResult) (exp_date : Z) :
  Strptime.strptime (expiry scan) = Some exp_date ->
  exp_date <= now ->
  status (verify_medicine_authenticity now scan) = fake
  /\ confidence (verify_medicine_authenticity now scan) = 95.
Proof.
  intros Hp Hle. unfold verify_medicine_authenticity.
  rewrite final_status, final_confidence, rule4_status, rule4_confidence.
  destruct (rule3_expired now scan (rule2 scan (rule1 scan init)) exp_date Hp Hle)
    as [Hs Hc].
  rewrite Hs, Hc. split; [reflexivity|].
  destruct (manufacturer_known scan); reflexivity.
Qed.

Lemma expired_scan_is_fake_95_witness :
  let scan := {| codes := ["MG-VALID-ABC123-BATCH2024"]; batch := "BATCH2024001";
                 expiry := "2025-12-31"; manufacturer := "MediCorp Pharma" |} in
  let now := PyTime.midnight 2026 11 4 in
  Strptime.strptime (expiry scan) = Some (PyTime.midnight 2025 12 31)
  /\ PyTime.midnight 2025 12 31 <= now
  /\ status (verify_medicine_authenticity now scan) = fake
  /\ confidence (verify_medicine_authenticity now scan) = 95.
Proof.
  intros scan now.
  assert (Hp : Strptime.strptime (expiry scan) = Some (PyTime.midnight 2025 12 31))
    by (vm_compute; reflexivity).
  assert (Hle : PyTime.midnight 2025 12 31 <= now) by (vm_compute; discriminate).
  split; [exact Hp|]. split; [exact Hle|].
  exact (expired_scan_is_fake_95 now scan (PyTime.midnight 2025 12 31) Hp Hle).
Defined.

(** ** A valid marker and an expiry in the future *)






(** C4. The confidence of the result lies between 0 and 100. *)
Theorem confidence_within_0_100 (now : Z) (scan : ScanResult) :
  0 <= confidence (verify_medicine_authenticity now scan) <= 100.
Proof. pose proof (confidence_range now scan). lia. Qed.

(** ** The messages *)












(** ** A fake marker and the batch bonus *)






End AuthenticityFacts.

(** * Properties of the job table *)

Module SchedulerFacts.
Import Scheduler.

Lemma has_id_true i j : has_id i j = true <-> id j = i.
Proof. unfold has_id. apply String.eqb_eq. Qed.

Lemma has_id_false i j : has_id i j = false <-> id j <> i.
Proof. unfold has_id. apply String.eqb_neq. Qed.

Lemma lookup_none_absent i t :
  lookup_job i t = None -> ~ In i (List.map id t).
Proof.
  unfold lookup_job. induction t as [|j t IH]; simpl; [tauto|].
  destruct (has_id i j) eqn:E; [discriminate|].
  intros H [Hj|Hin]; [|exact (IH H Hin)].
  apply has_id_false in E. contradiction.
Qed.

Lemma lookup_some_present i t j :
  lookup_job i t = Some j -> In i (List.map id t).
Proof.
  unfold lookup_job. intros H. apply find_some in H. destruct H as [Hin E].
  apply has_id_true in E. subst i. now apply in_map.
Qed.

Lemma absent_no_live_jobs i t :
  ~ In i (List.map id t) -> live_jobs i t = [].
Proof.
  unfold live_jobs. induction t as [|j t IH]; simpl; [reflexivity|].
  intros H. destruct (has_id i j) eqn:E.
  - apply has_id_true in E. tauto.
  - apply IH. tauto.
Qed.

(** Updating a job keeps every id where it is. *)
Lemma update_ids job t :
  List.map id (store_update_job job t) = List.map id t.
Proof.
  unfold store_update_job. induction t as [|j t IH]; simpl; [reflexivity|].
  rewrite IH. destruct (has_id (id job) j) eqn:E; [|reflexivity].
  apply has_id_true in E. now rewrite E.
Qed.

Lemma update_absent job t :
  ~ In (id job) (List.map id t) -> store_update_job job t = t.
Proof.
  unfold store_update_job. induction t as [|j t IH]; simpl; [reflexivity|].
  intros H. destruct (has_id (id job) j) eqn:E.
  - apply has_id_true in E. tauto.
  - f_equal. apply IH. tauto.
Qed.

Lemma update_live_jobs job t :
  unique_ids t -> In (id job) (List.map id t) ->
  live_jobs (id job) (store_update_job job t) = [job].
Proof.
  unfold unique_ids. induction t as [|j t IH]; simpl; [tauto|].
  intros Hnd Hin. inversion Hnd as [|x l Hnotin Hnd' Heq]; subst.
  unfold live_jobs, store_update_job in *. simpl.
  destruct (has_id (id job) j) eqn:E.
  - apply has_id_true in E. simpl.
    assert (Hself : has_id (id job) job = true) by now apply has_id_true.
    rewrite Hself. f_equal.
    rewrite E in Hnotin.
    fold (store_update_job job t). rewrite (update_absent job t Hnotin).
    now apply absent_no_live_jobs.
  - simpl. rewrite E. apply IH; [assumption|].
    destruct Hin as [Hj|Hin]; [|assumption].
    apply has_id_false in E. congruence.
Qed.

Lemma update_other_live_jobs i job t :
  i <> id job -> live_jobs i (store_update_job job t) = live_jobs i t.
Proof.
  intros Hne. unfold live_jobs, store_update_job.
  induction t as [|j t IH]; simpl; [reflexivity|].
  rewrite IH. destruct (has_id (id job) j) eqn:E; [|reflexivity].
  apply has_id_true in E.
  assert (H1 : has_id i job = false) by (apply has_id_false; congruence).
  assert (H2 : has_id i j = false) by (apply has_id_false; congruence).
  now rewrite H1, H2.
Qed.

Lemma live_jobs_app i t u :
  live_jobs i (t ++ u)%list = (live_jobs i t ++ live_jobs i u)%list.
Proof. unfold live_jobs. apply filter_app. Qed.

(** What [schedule_reminder] does to the table. *)
Lemma schedule_reminder_cases rid name uid time t :
  let job := {| id := job_id rid; run_date := time;
                args := (rid, name, uid, time) |} in
  (lookup_job (job_id rid) t = None
   /\ schedule_reminder rid name uid time t = (t ++ [job])%list)
  \/ (In (job_id rid) (List.map id t)
      /\ schedule_reminder rid name uid time t = store_update_job job t).
Proof.
  intros job. unfold schedule_reminder, add_job, store_add_job. simpl.
  destruct (lookup_job (job_id rid) t) as [j|] eqn:E.
  - right. split; [|reflexivity]. eapply lookup_some_present; eassumption.
  - left. split; reflexivity.
Qed.

(** One call leaves one live job under the id, keeps the ids of the table
    distinct and leaves the jobs of other ids alone. *)
Lemma schedule_reminder_once rid name uid time t :
  unique_ids t ->
  let t' := schedule_reminder rid name uid time t in
  unique_ids t'
  /\ live_jobs (job_id rid) t'
     = [ {| id := job_id rid; run_date := time; args := (rid, name, uid, time) |} ]
  /\ (forall i, i <> job_id rid -> live_jobs i t' = live_jobs i t).
Proof.
  intros Hu t'. subst t'.
  destruct (schedule_reminder_cases rid name uid time t) as [[Hn ->]|[Hin ->]].
  - apply lookup_none_absent in Hn. repeat split.
    + unfold unique_ids in *. rewrite map_app. simpl.
      apply NoDup_app; [assumption| repeat constructor; simpl; tauto |].
      intros x Hx [<-|[]]. contradiction.
    + rewrite live_jobs_app, (absent_no_live_jobs _ _ Hn). simpl.
      unfold has_id. simpl. now rewrite String.eqb_refl.
    + intros i Hi. rewrite live_jobs_app. simpl.
      assert (H : has_id i {| id := job_id rid; run_date := time;
                              args := (rid, name, uid, time) |} = false)
        by (apply has_id_false; simpl; congruence).
      rewrite H. apply app_nil_r.
  - repeat split.
    + unfold unique_ids. now rewrite update_ids.
    + now apply (update_live_jobs
                   {| id := job_id rid; run_date := time;
                      args := (rid, name, uid, time) |}).
    + intros i Hi. now apply update_other_live_jobs.
Qed.



End SchedulerFacts.

(** * Properties of the reminder generator *)

Module RemindersFacts.
Import PyStr Reminders.

(** ** Reading the times per day *)



















(** ** The loops *)

Lemma range_bounds x n : In x (range n) -> 0 <= x < n.
Proof.
  unfold range. rewrite in_map_iff. intros [k [<- Hk]].
  apply in_seq in Hk. lia.
Qed.

Lemma for_each_invariant {A S : Type} (I : S -> Prop) (xs : list A)
      (body : A -> S -> option S) :
  (forall x s1 s2, In x xs -> I s1 -> body x s1 = Some s2 -> I s2) ->
  forall s s', I s -> for_each xs body s = Some s' -> I s'.
Proof.
  induction xs as [|x xs IH]; simpl; intros Hbody s s' Hs Hrun.
  - now inversion Hrun; subst.
  - destruct (body x s) as [s1|] eqn:E; [|discriminate].
    apply (IH (fun y a b Hy => Hbody y a b (or_intror Hy)) s1 s'); [|exact Hrun].
    apply (Hbody x s s1); auto.
Qed.

Lemma hour_of_at_least_6 times_per_day slot :
  0 <= slot -> 6 <= hour_of times_per_day slot.
Proof.
  intros H. unfold hour_of.
  assert (0 <= 16 / Z.max 1 times_per_day) by (apply Z.div_pos; lia).
  nia.
Qed.

(** A turn of the inner loop that does not raise adds what [kept] says. *)
Lemma slot_body_some mid uid tpd start utcnow day slot acc acc' :
  slot_body mid uid tpd start utcnow day slot acc = Some acc' ->
  acc' = (acc ++ kept mid uid start utcnow day slot (hour_of tpd slot))%list.
Proof.
  unfold slot_body, PyTime.timedelta, PyTime.add, kept, slot_reminder.
  cbn [reminder_time].
  destruct (Z.abs _ <=? 999999999); [|discriminate].
  destruct (_ && _); [|discriminate].
  rewrite Z.add_assoc.
  destruct (utcnow day slot <? _); intros H; inversion H; subst;
    [reflexivity|symmetry; apply app_nil_r].
Qed.

(** A turn of the inner loop whose time is a datetime does not raise. *)
Lemma slot_body_ok mid uid tpd start utcnow day slot acc :
  0 <= start -> 0 <= day -> 0 <= slot ->
  start + day * PyTime.us_per_day + hour_of tpd slot * PyTime.us_per_hour
  <= PyTime.datetime_max ->
  slot_body mid uid tpd start utcnow day slot acc
  = Some (acc ++ kept mid uid start utcnow day slot (hour_of tpd slot))%list.
Proof.
  intros Hs Hd Hsl Hmax.
  pose proof (hour_of_at_least_6 tpd slot Hsl) as Hh.
  unfold slot_body, PyTime.timedelta, PyTime.add, kept, slot_reminder.
  cbn [reminder_time].
  set (h := hour_of tpd slot) in *.
  unfold PyTime.datetime_max, PyTime.max_ordinal, PyTime.us_per_day,
    PyTime.us_per_hour in *.
  set (us := day * (24 * (3600 * 1000000)) + h * (3600 * 1000000)) in *.
  assert (Hus : 0 <= us) by (unfold us; lia).
  assert (Hq : 0 <= us / (24 * (3600 * 1000000)) <= 3652059).
  { split; [apply Z.div_pos; lia|].
    apply Z.div_le_upper_bound; [lia|]. unfold us in *. lia. }
  destruct (Z.leb_spec (Z.abs (us / (24 * (3600 * 1000000)))) 999999999); [|lia].
  destruct (Z.leb_spec 0 (start + us)); [|lia].
  destruct (Z.leb_spec (start + us) (3652059 * (24 * (3600 * 1000000)) - 1));
    [|unfold us in *; lia].
  cbn [andb]. unfold us. rewrite Z.add_assoc.
  destruct (utcnow day slot <? _); [reflexivity|now rewrite app_nil_r].
Qed.

Lemma kept_future mid uid tpd duration start utcnow day slot r :
  0 <= day < duration -> 0 <= slot < tpd ->
  In r (kept mid uid start utcnow day slot (hour_of tpd slot)) ->
  future_slot mid uid tpd duration start utcnow r.
Proof.
  intros Hd Hsl. unfold kept.
  destruct (Z.ltb_spec (utcnow day slot)
              (reminder_time (slot_reminder mid uid start day (hour_of tpd slot))))
    as [Hlt|]; [|intros []].
  intros [<-|[]]. exists day, slot. repeat split; try lia.
  cbn [reminder_time slot_reminder].
  pose proof (hour_of_at_least_6 tpd slot (proj1 Hsl)).
  unfold PyTime.us_per_day, PyTime.us_per_hour. nia.
Qed.

(** Every reminder of the list the loops build is the reminder of a slot
    that lies in the future. *)
Lemma reminders_to_create_future mid uid timing duration start utcnow rs :
  reminders_to_create mid uid timing duration start utcnow = Some rs ->
  Forall (future_slot mid uid (parse_times_per_day timing) duration start utcnow) rs.
Proof.
  unfold reminders_to_create.
  set (tpd := parse_times_per_day timing).
  set (I := Forall (future_slot mid uid tpd duration start utcnow)).
  apply (for_each_invariant I); [|constructor].
  intros day s1 s2 Hday Hs1.
  apply (for_each_invariant I); [|exact Hs1].
  intros slot a b Hslot Ha Hb.
  apply slot_body_some in Hb. subst b.
  apply Forall_app. split; [exact Ha|].
  apply Forall_forall. intros r Hr.
  apply (kept_future mid uid tpd duration start utcnow day slot);
    auto using range_bounds.
Qed.

(** ** Persisting and scheduling *)

Lemma add_all_rows rs db :
  List.map snd (fst (add_all rs db)) = rs
  /\ reminders (snd (add_all rs db)) = (reminders db ++ fst (add_all rs db))%list.
Proof.
  revert db. induction rs as [|r rs IH]; intros db; simpl.
  - split; [reflexivity|symmetry; apply app_nil_r].
  - match goal with
    | |- context [add_all rs ?d] =>
        destruct (IH d) as [E1 E2]; destruct (add_all rs d) as [rows db'']
    end.
    simpl in *. split; [now rewrite E1|].
    rewrite E2. now rewrite <- app_assoc.
Qed.

Lemma schedule_reminder_jobs rid name uid time t j :
  In j (Scheduler.schedule_reminder rid name uid time t) ->
  In j t \/ (Scheduler.id j = Scheduler.job_id rid /\ Scheduler.run_date j = time).
Proof.
  destruct (SchedulerFacts.schedule_reminder_cases rid name uid time t)
    as [[_ ->]|[_ ->]].
  - rewrite in_app_iff. intros [H|[<-|[]]]; [now left|now right].
  - unfold Scheduler.store_update_job. rewrite in_map_iff.
    intros [j0 [E Hin]].
    destruct (Scheduler.has_id _ j0); subst; [now right|now left].
Qed.

Lemma schedule_all_jobs name uid rows jobs j :
  In j (schedule_all name uid rows jobs) ->
  In j jobs
  \/ exists row, In row rows /\ Scheduler.id j = Scheduler.job_id (fst row)
                 /\ Scheduler.run_date j = reminder_time (snd row).
Proof.
  unfold schedule_all. revert jobs.
  induction rows as [|row rows IH]; simpl; intros jobs H; [now left|].
  destruct (IH _ H) as [Hin|[row' [Hr He]]].
  - apply schedule_reminder_jobs in Hin. destruct Hin as [Hin|He]; [now left|].
    right. exists row. auto.
  - right. exists row'. auto.
Qed.



(** C7. Every reminder the generator creates is the reminder of a slot of
    the schedule whose time is strictly after the reading of the clock made
    for that slot (and after the start time): this holds of the list the
    loops build, of the rows the function adds to the store, and of the jobs
    it adds to the job table, so that a slot whose time is not after the
    reading is neither persisted nor scheduled. *)
Theorem created_reminders_are_future (start : Z) (utcnow : Z -> Z -> Z)
        (mid uid : Z) (timing : string) (duration : Z)
        (db : Store) (jobs : Scheduler.JobTable) :
  let future := future_slot mid uid (parse_times_per_day timing) duration
                            start utcnow in
  let w := generate_medicine_reminders start utcnow mid uid timing duration
                                       (db, jobs) in
  (forall rs, reminders_to_create mid uid timing duration start utcnow = Some rs ->
              forall r, In r rs -> future r)
  /\ (forall r, future r ->
                exists day slot, utcnow day slot < reminder_time r
                                 /\ start < reminder_time r)
  /\ exists rows,
       reminders (fst w) = (reminders db ++ rows)%list
       /\ (forall row, In row rows -> future (snd row))
       /\ forall j, In j (snd w) ->
                    In j jobs
                    \/ exists row, In row rows
                                   /\ Scheduler.id j = Scheduler.job_id (fst row)
                                   /\ Scheduler.run_date j = reminder_time (snd row).
Proof.
  intros future w.
  assert (Hlist : forall rs,
             reminders_to_create mid uid timing duration start utcnow = Some rs ->
             forall r, In r rs -> future r).
  { intros rs Hrs. apply Forall_forall.
    now apply reminders_to_create_future. }
  split; [exact Hlist|]. split.
  { intros r (day & slot & _ & _ & _ & H1 & H2). exists day, slot. auto. }
  assert (Hsame : w = (db, jobs) ->
            exists rows,
              reminders (fst w) = (reminders db ++ rows)%list
              /\ (forall row, In row rows -> future (snd row))
              /\ forall j, In j (snd w) ->
                    In j jobs
                    \/ exists row, In row rows
                                   /\ Scheduler.id j = Scheduler.job_id (fst row)
                                   /\ Scheduler.run_date j = reminder_time (snd row)).
  { intros ->. exists []. simpl. rewrite app_nil_r. repeat split; auto.
    intros row []. }
  subst w. unfold generate_medicine_reminders in *.
  destruct (medicine_name mid db) as [name|]; [|now apply Hsame].
  destruct (reminders_to_create mid uid timing duration start utcnow)
    as [[|r rs]|] eqn:E; try now apply Hsame.
  clear Hsame.
  destruct (add_all_rows (r :: rs) db) as [E1 E2].
  destruct (add_all (r :: rs) db) as [rows db'].
  cbn [fst snd] in *. exists rows. repeat split.
  - exact E2.
  - intros row Hrow. apply (Hlist (r :: rs) eq_refl).
    rewrite <- E1. now apply in_map.
  - apply schedule_all_jobs.
Qed.

Lemma created_reminders_are_future_witness :
  let start := PyTime.midnight 2026 11 4 + 9 * PyTime.us_per_hour in
  let utcnow := fun day slot : Z => start + 7 * PyTime.us_per_hour in
  reminders_to_create 5 1 "2x/day" 1 start utcnow
  = Some [ slot_reminder 5 1 start 0 14 ]
  /\ future_slot 5 1 2 1 start utcnow (slot_reminder 5 1 start 0 14).
Proof.
  intros start utcnow.
  assert (E : reminders_to_create 5 1 "2x/day" 1 start utcnow
              = Some [ slot_reminder 5 1 start 0 14 ])
    by (vm_compute; reflexivity).
  split; [exact E|].
  destruct (created_reminders_are_future start utcnow 5 1 "2x/day" 1
              {| medicines := [(5, "Aspirin")]; reminders := [];
                 next_reminder_id := 1 |} []) as (H & _ & _).
  apply (H _ E). left. reflexivity.
Defined.

End RemindersFacts.

(** * The scans and timings of the repository *)

Module Examples.
Import Authenticity.

(** what [verify_medicine_authenticity] returns on the scan of
    [scan_qr_barcode], read on 2026-11-04 *)
Example demo_scan_verified :
  returned (verify_medicine_authenticity (PyTime.midnight 2026 11 4) demo_scan)
  = ("valid",
     ["✓ Valid MediGuard barcode format detected";
      "✓ Batch format valid: BATCH2024001";
      "✓ Expiry valid until 2026-12-31";
      "✓ Manufacturer: MediCorp Pharma"], 95).
Proof. vm_compute. reflexivity. Qed.

(** and on the scan of a failed read *)
Example error_scan_verified :
  returned (verify_medicine_authenticity (PyTime.midnight 2026 11 4) error_scan)
  = ("fake",
     ["⚠ Error scanning barcode - unable to verify";
      "✗ Medicine already expired on 2025-12-31"], 95).
Proof. vm_compute. reflexivity. Qed.

Example strptime_examples :
  Strptime.strptime "2026-12-31" = Some (PyTime.midnight 2026 12 31)
  /\ Strptime.strptime "2026-2-9" = Some (PyTime.midnight 2026 2 9)
  /\ Strptime.strptime "2024-02-29" = Some (PyTime.midnight 2024 2 29)
  /\ Strptime.strptime "2026-02-29" = None
  /\ Strptime.strptime "2026-12-311" = None
  /\ Strptime.strptime "2026-13-01" = None
  /\ Strptime.strptime "0000-12-31" = None
  /\ Strptime.strptime "31/12/2026" = None
  /\ PyTime.ymd2ord 1 1 1 = 1
  /\ PyTime.ymd2ord 1970 1 1 = 719163
  /\ PyTime.ymd2ord 9999 12 31 = PyTime.max_ordinal.
Proof. vm_compute. repeat split; reflexivity. Qed.

Example int_examples :
  PyStr.int "2" = Some 2 /\ PyStr.int " -12_3 " = Some (-123)
  /\ PyStr.int "007" = Some 7 /\ PyStr.int "+4" = Some 4
  /\ PyStr.int "" = None /\ PyStr.int "twice " = None
  /\ PyStr.int "1__2" = None /\ PyStr.int "_1" = None /\ PyStr.int "1_" = None
  /\ PyStr.int "+ 1" = None /\ PyStr.int "2.5" = None.
Proof. vm_compute. repeat split; reflexivity. Qed.

(** the timings of seed.py *)
Example seed_timings :
  List.map Reminders.parse_times_per_day ["2x/day"; "3x/day"; "1x/day"] = [2; 3; 1].
Proof. reflexivity. Qed.

Example job_id_example : Scheduler.job_id 42 = "reminder_42".
Proof. reflexivity. Qed.

End Examples.

(** * Properties of the upload helpers *)

Module UploadFacts.
Import PyStr PyText Upload.

(** ** File names *)

Lemma after_last_none c s : after_last c s = None <-> has_char c s = false.
Proof.
  induction s as [|d r IH]; simpl; [tauto|].
  rewrite (Ascii.eqb_sym c d).
  destruct (after_last c r) as [x|].
  - destruct (has_char c r); [|destruct IH as [_ IH]; discriminate (IH eq_refl)].
    rewrite orb_true_r. split; discriminate.
  - destruct IH as [IH _]. rewrite (IH eq_refl), orb_false_r.
    destruct (Ascii.eqb d c); split; congruence.
Qed.

Lemma has_char_app c s t : has_char c (s ++ t) = has_char c s || has_char c t.
Proof.
  induction s as [|d r IH]; simpl; [reflexivity|].
  now rewrite IH, orb_assoc.
Qed.

Lemma after_last_app c stem ext :
  has_char c ext = false -> after_last c (stem ++ String c ext) = Some ext.
Proof.
  intros H. apply after_last_none in H.
  induction stem as [|d r IH]; simpl.
  - now rewrite H, Ascii.eqb_refl.
  - now rewrite IH.
Qed.

(** Cutting a string at its last [c]. *)
Lemma after_last_some c s ext :
  after_last c s = Some ext ->
  exists stem, s = stem ++ String c ext /\ has_char c ext = false.
Proof.
  revert ext. induction s as [|d r IH]; simpl; intros ext H; [discriminate|].
  destruct (after_last c r) as [x|] eqn:E.
  - inversion H; subst x. destruct (IH ext eq_refl) as [stem [-> Hn]].
    exists (String d stem). split; [reflexivity|assumption].
  - destruct (Ascii.eqb_spec d c) as [->|]; [|discriminate].
    inversion H; subst r. exists EmptyString. split; [reflexivity|].
    now apply after_last_none.
Qed.

Lemma mem_In x xs : mem x xs = true <-> In x xs.
Proof.
  unfold mem. rewrite existsb_exists. split.
  - intros [y [Hin E]]. apply String.eqb_eq in E. now subst.
  - intros H. exists x. split; [assumption|apply String.eqb_refl].
Qed.

(** X1. A file name is allowed exactly when it has a dot and what follows
    its last dot is, in lower case, one of png, jpg, jpeg, gif and bmp. *)
Theorem allowed_file_by_last_extension (filename : string) :
  allowed_file filename = true
  <-> exists stem ext,
        filename = stem ++ String "." ext
        /\ has_char "." ext = false
        /\ In (lower ext) ALLOWED_EXTENSIONS.
Proof.
  unfold allowed_file. split.
  - intros H. apply andb_prop in H. destruct H as [_ H].
    destruct (after_last "." filename) as [ext|] eqn:E; [|discriminate].
    destruct (after_last_some _ _ _ E) as [stem [-> Hn]].
    exists stem, ext. repeat split; [assumption|]. now apply mem_In.
  - intros (stem & ext & -> & Hn & Hin).
    rewrite has_char_app, (after_last_app _ stem ext Hn).
    change (has_char "." (String "." ext)) with true.
    rewrite orb_true_r. cbn [andb]. now apply mem_In.
Qed.









(** ** The medicines read from a text *)

Lemma take_length n s : (String.length (take n s) <= n)%nat.
Proof.
  unfold take. revert s. induction n as [|n IH]; intros [|c r]; simpl; try lia.
  specialize (IH r). lia.
Qed.

Lemma take_nonempty n s : s <> EmptyString -> take (S n) s <> EmptyString.
Proof. destruct s; [congruence|discriminate]. Qed.

Lemma words_nonempty s : Forall (fun w => w <> EmptyString) (words s).
Proof.
  induction s as [|c r IH]; [constructor|].
  cbn [words]. destruct (is_blank c); [exact IH|].
  destruct r as [|d r']; [repeat constructor; discriminate|].
  destruct (is_blank d); [constructor; [discriminate|exact IH]|].
  destruct (words (String d r')) as [|w ws]; [repeat constructor; discriminate|].
  inversion IH; subst. constructor; [discriminate|assumption].
Qed.

Lemma join_nonempty sep w ws : w <> EmptyString -> join sep (w :: ws) <> EmptyString.
Proof.
  intros H. destruct w as [|c r]; [congruence|].
  destruct ws; simpl; discriminate.
Qed.

(** What a line gives: at most one medicine, with the fixed dosage, timing
    and duration, and a name of 1 to 100 characters. *)
Lemma parse_line_medicine line m :
  In m (parse_line line) ->
  parse_line line = [m]
  /\ dosage m = "500mg" /\ timing m = "2x/day" /\ duration m = 7
  /\ name m <> EmptyString /\ len (name m) <= 100.
Proof.
  unfold parse_line.
  destruct (negb (truthy (strip line)) || (len (strip line) <? 3)); [intros []|].
  destruct (existsb _ keywords); [|intros []].
  intros [<-|[]]. cbn [name dosage timing duration]. repeat split.
  - apply (take_nonempty 99).
    pose proof (words_nonempty (strip line)) as Hw.
    destruct (words (strip line)) as [|w ws]; [discriminate|].
    inversion Hw; subst.
    destruct ws; cbn [firstn]; now apply join_nonempty.
  - unfold len. pose proof (take_length 100
      match firstn 2 (words (strip line)) with
      | [] => "Unknown Medicine"
      | _ :: _ => join " " (firstn 2 (words (strip line)))
      end). lia.
Qed.

Lemma parse_line_at_most_one line : (List.length (parse_line line) <= 1)%nat.
Proof.
  unfold parse_line.
  destruct (negb (truthy (strip line)) || (len (strip line) <? 3)); [simpl; lia|].
  destruct (existsb _ keywords); simpl; lia.
Qed.

Lemma flat_map_length_le {A B : Type} (f : A -> list B) (xs : list A) :
  (forall x, (List.length (f x) <= 1)%nat) ->
  (List.length (flat_map f xs) <= List.length xs)%nat.
Proof.
  intros H. induction xs as [|x xs IH]; simpl; [lia|].
  rewrite length_app. specialize (H x). lia.
Qed.

Lemma parsed_medicines_fields text m :
  In m (parse_medicines_from_text text) ->
  dosage m = "500mg" /\ timing m = "2x/day" /\ duration m = 7
  /\ name m <> EmptyString /\ len (name m) <= 100.
Proof.
  unfold parse_medicines_from_text. intros Hm.
  apply in_flat_map in Hm. destruct Hm as [line [_ Hm]].
  now apply parse_line_medicine in Hm.
Qed.

(** X3. Every medicine [parse_medicines_from_text] reads has the dosage
    500mg, the timing 2x/day, the duration 7 and a name of 1 to 100
    characters, whatever the text says; and no line gives more than one
    medicine. *)
Theorem parsed_medicines_are_defaults (text : string) :
  (forall m, In m (parse_medicines_from_text text) ->
             dosage m = "500mg" /\ timing m = "2x/day" /\ duration m = 7
             /\ name m <> EmptyString /\ len (name m) <= 100)
  /\ (List.length (parse_medicines_from_text text)
      <= List.length (split_on newline text))%nat.
Proof.
  split.
  - apply parsed_medicines_fields.
  - unfold parse_medicines_from_text.
    apply flat_map_length_le, parse_line_at_most_one.
Qed.

Lemma extract_raw_text easyocr tesseract :
  truthy (fst (extract_from_prescription easyocr tesseract)) = true.
Proof.
  unfold extract_from_prescription. cbn [fst].
  destruct easyocr as [[|c r]|], tesseract as [[|d u]|]; reflexivity.
Qed.

(** X4. [extract_from_prescription] never gives an empty text or an empty
    list of medicines: without a text from either reader the text is the
    placeholder and the list the sample medicine.  Every medicine of the
    list has the duration 7 and a timing that the reminder generator reads
    as twice a day. *)
Theorem extract_always_has_medicines (easyocr tesseract : option string) :
  let result := extract_from_prescription easyocr tesseract in
  truthy (fst result) = true
  /\ snd result <> []
  /\ (forall m, In m (snd result) ->
                duration m = 7 /\ name m <> EmptyString
                /\ Reminders.parse_times_per_day (timing m) = 2)
  /\ ((easyocr = None \/ easyocr = Some EmptyString) ->
      (tesseract = None \/ tesseract = Some EmptyString) ->
      result = (ocr_placeholder, [sample_medicine])).
Proof.
  intros result. split; [apply extract_raw_text|].
  subst result. unfold extract_from_prescription. cbn [fst snd].
  set (raw := if negb (truthy _) then ocr_placeholder else _).
  split; [|split].
  - destruct (parse_medicines_from_text raw); discriminate.
  - intros m Hm.
    destruct (parse_medicines_from_text raw) as [|m0 ms] eqn:E.
    + destruct Hm as [<-|[]]. repeat split; discriminate.
    + rewrite <- E in Hm.
      destruct (parsed_medicines_fields raw m Hm) as (_ & Ht & Hd & Hn & _).
      rewrite Ht. repeat split; assumption.
  - intros [->| ->] [->| ->]; reflexivity.
Qed.

End UploadFacts.

(** * Properties of the job table, continued *)

Module RecoveryFacts.
Import Scheduler Recovery.

(** ** Job ids *)

Lemma append_injective p a b : (p ++ a)%string = (p ++ b)%string -> a = b.
Proof.
  induction p as [|c p IH]; simpl; intros H; [exact H|].
  inversion H. auto.
Qed.

Lemma of_int_injective a b : PyStr.of_int a = PyStr.of_int b -> a = b.
Proof.
  unfold PyStr.of_int. intros H.
  apply (f_equal NilEmpty.int_of_string) in H.
  rewrite !NilEmpty.isi in H. inversion H as [H'].
  apply (f_equal Z.of_int) in H'. now rewrite !DecimalZ.of_to in H'.
Qed.

Lemma job_id_injective a b : job_id a = job_id b -> a = b.
Proof.
  unfold job_id. intros H. apply append_injective in H.
  now apply of_int_injective.
Qed.

(** ** Removing a job *)

Lemma filter_all {A : Type} (p : A -> bool) (l : list A) :
  (forall x, In x l -> p x = true) -> List.filter p l = l.
Proof.
  induction l as [|x l IH]; simpl; intros H; [reflexivity|].
  rewrite (H x (or_introl eq_refl)). f_equal. apply IH. auto.
Qed.

Lemma unschedule_is_filter rid t :
  unschedule_reminder rid t
  = List.filter (fun j => negb (has_id (job_id rid) j)) t.
Proof.
  unfold unschedule_reminder, store_remove_job.
  destruct (lookup_job (job_id rid) t) as [j|] eqn:E; [reflexivity|].
  symmetry. apply filter_all. intros x Hx.
  unfold lookup_job in E. now rewrite (find_none _ _ E x Hx).
Qed.

Lemma unschedule_live_jobs rid t :
  live_jobs (job_id rid) (unschedule_reminder rid t) = [].
Proof.
  rewrite unschedule_is_filter. unfold live_jobs.
  induction t as [|j t IH]; simpl; [reflexivity|].
  destruct (has_id (job_id rid) j) eqn:E; simpl; [exact IH|].
  now rewrite E.
Qed.

Lemma unschedule_other_live_jobs rid i t :
  i <> job_id rid ->
  live_jobs i (unschedule_reminder rid t) = live_jobs i t.
Proof.
  intros Hne. rewrite unschedule_is_filter. unfold live_jobs.
  induction t as [|j t IH]; simpl; [reflexivity|].
  destruct (has_id (job_id rid) j) eqn:E; simpl.
  - apply SchedulerFacts.has_id_true in E.
    assert (H : has_id i j = false)
      by (apply SchedulerFacts.has_id_false; congruence).
    now rewrite H.
  - destruct (has_id i j); [now rewrite IH|exact IH].
Qed.



(** X5. Distinct reminders have distinct job ids, so that scheduling or
    unscheduling one reminder leaves the live jobs of every other reminder
    as they were. *)
Theorem other_reminders_untouched (a b : Z) (name : string) (uid time : Z)
        (t : JobTable) :
  a <> b ->
  unique_ids t ->
  job_id a <> job_id b
  /\ live_jobs (job_id b) (schedule_reminder a name uid time t)
     = live_jobs (job_id b) t
  /\ live_jobs (job_id b) (unschedule_reminder a t) = live_jobs (job_id b) t.
Proof.
  intros Hab Hu.
  assert (Hne : job_id b <> job_id a)
    by (intros H; apply job_id_injective in H; congruence).
  split; [congruence|]. split.
  - destruct (SchedulerFacts.schedule_reminder_once a name uid time t Hu)
      as (_ & _ & H). now apply H.
  - now apply unschedule_other_live_jobs.
Qed.

Lemma other_reminders_untouched_witness :
  let t := schedule_reminder 8 "Ibuprofen" 1 (PyTime.midnight 2026 11 5) [] in
  live_jobs "reminder_8" (schedule_reminder 7 "Aspirin" 1 (PyTime.midnight 2026 11 6) t)
  = live_jobs "reminder_8" t
  /\ live_jobs "reminder_8" (unschedule_reminder 7 t) = live_jobs "reminder_8" t.
Proof.
  intros t.
  assert (Hu : unique_ids t).
  { unfold unique_ids. simpl. constructor; [simpl; tauto|constructor]. }
  assert (Hne : 7 <> 8) by discriminate.
  exact (proj2 (other_reminders_untouched 7 8 "Aspirin" 1
                  (PyTime.midnight 2026 11 6) t Hne Hu)).
Defined.



(** X7. Scheduling a reminder that has no job and unscheduling it again
    gives the table back as it was. *)
Theorem schedule_then_unschedule (rid : Z) (name : string) (uid time : Z)
        (t : JobTable) :
  lookup_job (job_id rid) t = None ->
  unschedule_reminder rid (schedule_reminder rid name uid time t) = t.
Proof.
  intros Hn.
  destruct (SchedulerFacts.schedule_reminder_cases rid name uid time t)
    as [[_ ->]|[Hin _]].
  - rewrite unschedule_is_filter, filter_app. simpl.
    unfold has_id at 2. simpl. rewrite String.eqb_refl. simpl.
    rewrite app_nil_r. apply filter_all. intros x Hx.
    unfold lookup_job in Hn. now rewrite (find_none _ _ Hn x Hx).
  - apply SchedulerFacts.lookup_none_absent in Hn. contradiction.
Qed.

Lemma schedule_then_unschedule_witness :
  let t := [job_of 8 "Ibuprofen" 1 0] in
  unschedule_reminder 7 (schedule_reminder 7 "Aspirin" 1 5 t) = t.
Proof.
  intros t. apply (schedule_then_unschedule 7 "Aspirin" 1 5 t). reflexivity.
Defined.

(** ** Sequences of calls *)






(** ** The recovery at start *)


Lemma reschedule_loop_jobs db rows jobs j :
  In j (reschedule_loop db rows jobs) ->
  In j jobs
  \/ exists row, In row rows /\ id j = job_id (fst row)
                 /\ run_date j = Reminders.reminder_time (snd row).
Proof.
  revert jobs. induction rows as [|[rid r] rows IH]; simpl; intros jobs H;
    [now left|].
  destruct (Reminders.medicine_name (Reminders.medicine_id r) db) as [name|];
    [|now left].
  destruct (IH _ H) as [Hin|[row [Hr He]]].
  - apply RemindersFacts.schedule_reminder_jobs in Hin.
    destruct Hin as [Hin|He]; [now left|]. right. exists (rid, r). auto.
  - right. exists row. auto.
Qed.

Lemma reschedule_loop_unique db rows jobs :
  unique_ids jobs -> unique_ids (reschedule_loop db rows jobs).
Proof.
  revert jobs. induction rows as [|[rid r] rows IH]; simpl; intros jobs Hu;
    [exact Hu|].
  destruct (Reminders.medicine_name (Reminders.medicine_id r) db) as [name|];
    [|exact Hu].
  apply IH.
  now destruct (SchedulerFacts.schedule_reminder_once rid name
                  (Reminders.user_id r) (Reminders.reminder_time r) jobs Hu).
Qed.



(** X10. The recovery at start schedules nothing but pending reminders of
    the store whose time is after the reading of the clock: every job of
    the table it builds is the job of such a reminder, at its time.  A
    pending reminder whose time has passed gets no job. *)
Theorem recovery_schedules_only_pending (now : Z) (db : Reminders.Store)
        (j : Job) :
  In j (reschedule_existing_reminders now db []) ->
  exists rid r,
    In (rid, r) (Reminders.reminders db)
    /\ Reminders.status r = "pending"
    /\ now < Reminders.reminder_time r
    /\ id j = job_id rid
    /\ run_date j = Reminders.reminder_time r.
Proof.
  unfold reschedule_existing_reminders. intros H.
  apply reschedule_loop_jobs in H. destruct H as [[]|[[rid r] [Hin [Hi Hr]]]].
  unfold pending_reminders in Hin. apply filter_In in Hin.
  destruct Hin as [Hin Hp]. apply andb_prop in Hp. destruct Hp as [Hs Ht].
  exists rid, r. repeat split; try assumption.
  - now apply String.eqb_eq in Hs.
  - cbn [snd] in Ht. lia.
Qed.


Lemma recovery_schedules_only_pending_witness :
  exists rid r,
    In (rid, r) (Reminders.reminders small_store)
    /\ Reminders.status r = "pending"
    /\ 100 < Reminders.reminder_time r
    /\ id (job_of 1 "Aspirin" 1 200) = job_id rid
    /\ run_date (job_of 1 "Aspirin" 1 200) = Reminders.reminder_time r.
Proof.
  apply (recovery_schedules_only_pending 100 small_store (job_of 1 "Aspirin" 1 200)).
  left. reflexivity.
Defined.


End RecoveryFacts.

(** * Properties of the reminder routes *)

Module RoutesFacts.
Import Scheduler Recovery Routes.

Lemma get_after_set_same rid s db :
  get_reminder rid (set_reminder_status rid s db)
  = option_map (with_status s) (get_reminder rid db).
Proof.
  unfold get_reminder, set_reminder_status. cbn [Reminders.reminders].
  induction (Reminders.reminders db) as [|[i r] rows IH]; [reflexivity|].
  cbn [List.map List.find fst snd].
  destruct (Z.eqb_spec i rid) as [->|Hne].
  - cbn [fst]. rewrite Z.eqb_refl. reflexivity.
  - cbn [fst]. destruct (Z.eqb_spec i rid); [contradiction|exact IH].
Qed.

Lemma get_after_set_other rid other s db :
  other <> rid ->
  get_reminder other (set_reminder_status rid s db) = get_reminder other db.
Proof.
  intros Hne. unfold get_reminder, set_reminder_status. cbn [Reminders.reminders].
  induction (Reminders.reminders db) as [|[i r] rows IH]; [reflexivity|].
  cbn [List.map List.find fst snd].
  destruct (Z.eqb_spec i rid) as [->|Hi]; cbn [fst].
  - destruct (Z.eqb_spec rid other); [congruence|exact IH].
  - destruct (i =? other); [reflexivity|exact IH].
Qed.

Lemma rows_after_set rid s db r :
  In (rid, r) (Reminders.reminders (set_reminder_status rid s db)) ->
  Reminders.status r = s.
Proof.
  unfold set_reminder_status. cbn [Reminders.reminders].
  rewrite in_map_iff. intros [[i r0] [E Hin]]. cbn [fst snd] in E.
  destruct (Z.eqb_spec i rid) as [->|Hne].
  - inversion E. reflexivity.
  - inversion E. congruence.
Qed.


Lemma close_reminder_done s message rid r w :
  get_reminder rid (fst w) = Some r ->
  fst (close_reminder s message (Some (Reminders.user_id r)) rid w)
  = Success (message r)
  /\ closed s rid w (snd (close_reminder s message (Some (Reminders.user_id r)) rid w)).
Proof.
  intros H. unfold close_reminder. rewrite H, Z.eqb_refl. cbn [negb fst snd].
  split; [reflexivity|]. unfold closed. cbn [fst snd]. repeat split.
  - apply get_after_set_same.
  - intros other Hne. now apply get_after_set_other.
  - apply RecoveryFacts.unschedule_live_jobs.
  - intros other Hne. apply RecoveryFacts.unschedule_other_live_jobs.
    intros E. apply RecoveryFacts.job_id_injective in E. congruence.
Qed.



(** X13. Called by the owner of the reminder, [mark_reminder_taken] answers
    with success, gives the reminder the status taken, removes its job and
    changes no other reminder and no other reminder's job;
    [skip_reminder] does the same with the status skipped. *)
Theorem owner_closes_a_reminder (rid : Z) (r : Reminders.Reminder) (w : World) :
  get_reminder rid (fst w) = Some r ->
  let session := Some (Reminders.user_id r) in
  (exists m, fst (mark_reminder_taken session rid w) = Success m)
  /\ closed "taken" rid w (snd (mark_reminder_taken session rid w))
  /\ (exists m, fst (skip_reminder session rid w) = Success m)
  /\ closed "skipped" rid w (snd (skip_reminder session rid w)).
Proof.
  intros H session. subst session. unfold mark_reminder_taken, skip_reminder.
  destruct (close_reminder_done "taken"
              (fun reminder => "Reminder marked as taken at "
                 ++ strftime_HM (Reminders.reminder_time reminder))%string
              rid r w H) as [A B].
  destruct (close_reminder_done "skipped" (fun _ => "Reminder skipped")
              rid r w H) as [C D].
  split; [eexists; exact A|]. split; [exact B|].
  split; [eexists; exact C|exact D].
Qed.

Lemma owner_closes_a_reminder_witness :
  closed "taken" 1 (small_store, [job_of 1 "Aspirin" 1 200])
    (snd (mark_reminder_taken (Some 1) 1 (small_store, [job_of 1 "Aspirin" 1 200]))).
Proof.
  exact (proj1 (proj2 (owner_closes_a_reminder 1
           {| Reminders.medicine_id := 5; Reminders.user_id := 1;
              Reminders.reminder_time := 200; Reminders.status := "pending" |}
           (small_store, [job_of 1 "Aspirin" 1 200]) eq_refl))).
Defined.

(** X14. A reminder its owner has marked as taken or skipped is not
    scheduled again by the recovery at the next start. *)
Theorem closed_reminder_is_not_rescheduled (now : Z) (rid : Z)
        (r : Reminders.Reminder) (w : World) :
  get_reminder rid (fst w) = Some r ->
  let session := Some (Reminders.user_id r) in
  live_jobs (job_id rid)
    (reschedule_existing_reminders now
       (fst (snd (mark_reminder_taken session rid w))) []) = []
  /\ live_jobs (job_id rid)
       (reschedule_existing_reminders now
          (fst (snd (skip_reminder session rid w))) []) = [].
Proof.
  intros H session. subst session.
  assert (G : forall s message,
             s <> "pending" ->
             live_jobs (job_id rid)
               (reschedule_existing_reminders now
                  (fst (snd (close_reminder s message
                               (Some (Reminders.user_id r)) rid w))) []) = []).
  { intros s message Hs. unfold close_reminder.
    rewrite H, Z.eqb_refl. cbn [negb fst snd].
    unfold reschedule_existing_reminders.
    destruct (live_jobs _ _) as [|j js] eqn:E; [reflexivity|].
    assert (Hj : In j (live_jobs (job_id rid)
                         (reschedule_loop (set_reminder_status rid s (fst w))
                            (pending_reminders now
                               (set_reminder_status rid s (fst w))) [])))
      by (rewrite E; now left).
    unfold live_jobs in Hj. apply filter_In in Hj. destruct Hj as [Hin Hid].
    apply SchedulerFacts.has_id_true in Hid.
    apply RecoveryFacts.reschedule_loop_jobs in Hin.
    destruct Hin as [[]|[[i r0] [Hrow [Hi _]]]].
    cbn [fst] in Hi. rewrite Hid in Hi.
    apply RecoveryFacts.job_id_injective in Hi. subst i.
    unfold pending_reminders in Hrow. apply filter_In in Hrow.
    destruct Hrow as [Hrow Hp]. apply andb_prop in Hp. destruct Hp as [Hp _].
    apply String.eqb_eq in Hp. cbn [snd] in Hp.
    apply rows_after_set in Hrow. congruence. }
  split; apply G; discriminate.
Qed.

Lemma closed_reminder_is_not_rescheduled_witness :
  live_jobs (job_id 1)
    (reschedule_existing_reminders 100
       (fst (snd (mark_reminder_taken (Some 1) 1
                    (small_store, [job_of 1 "Aspirin" 1 200])))) []) = [].
Proof.
  exact (proj1 (closed_reminder_is_not_rescheduled 100 1
           {| Reminders.medicine_id := 5; Reminders.user_id := 1;
              Reminders.reminder_time := 200; Reminders.status := "pending" |}
           (small_store, [job_of 1 "Aspirin" 1 200]) eq_refl)).
Defined.

End RoutesFacts.

(** * More properties of the rule engine *)

Module AuthenticityMore.
Import PyStr Authenticity AuthenticityFacts.

(** The status of the result: that of the first rule, unless the expiry
    date parses and is not after the reading of the clock. *)
Lemma status_formula now scan :
  status (verify_medicine_authenticity now scan)
  = match Strptime.strptime (expiry scan) with
    | Some exp_date => if now <? exp_date then status (rule1 scan init) else fake
    | None => status (rule1 scan init)
    end.
Proof.
  unfold verify_medicine_authenticity. rewrite final_status, rule4_status.
  unfold rule3.
  destruct (Strptime.strptime (expiry scan)) as [d|] eqn:E.
  - rewrite (strptime_present _ _ E).
    destruct (now <? d); simpl; [apply rule2_status|reflexivity].
  - destruct (expiry_present scan); simpl; apply rule2_status.
Qed.


(** X16. As time passes a scan can only turn fake: a scan that is fake at
    one reading of the clock is fake at every later one. *)
Theorem fake_stays_fake_later (now later : Z) (scan : ScanResult) :
  status (verify_medicine_authenticity now scan) = fake ->
  now <= later ->
  status (verify_medicine_authenticity later scan) = fake.
Proof.
  rewrite !status_formula. intros H Hle.
  destruct (Strptime.strptime (expiry scan)) as [d|]; [|exact H].
  destruct (Z.ltb_spec now d), (Z.ltb_spec later d); try reflexivity;
    try exact H; lia.
Qed.

Lemma fake_stays_fake_later_witness :
  status (verify_medicine_authenticity (PyTime.midnight 2027 1 1) demo_scan) = fake.
Proof.
  apply (fake_stays_fake_later (PyTime.midnight 2026 12 31)
           (PyTime.midnight 2027 1 1) demo_scan).
  - vm_compute. reflexivity.
  - vm_compute. discriminate.
Defined.






(** X19. The verification route scans with [scan_qr_barcode], which gives the
    same scan for every image: whatever the image, the result is valid with
    confidence 95 while the clock reads before 2026-12-31, and fake with
    confidence 95 from then on. *)
Theorem every_image_verifies_alike (now : Z) (image_path : string) :
  let out := verify_medicine_authenticity now (Upload.scan_qr_barcode image_path) in
  (now < PyTime.midnight 2026 12 31 ->
   returned out
   = ("valid",
      ["✓ Valid MediGuard barcode format detected";
       "✓ Batch format valid: BATCH2024001";
       "✓ Expiry valid until 2026-12-31";
       "✓ Manufacturer: MediCorp Pharma"], 95))
  /\ (PyTime.midnight 2026 12 31 <= now ->
      returned out
      = ("fake",
         ["✓ Valid MediGuard barcode format detected";
          "✓ Batch format valid: BATCH2024001";
          "✗ Medicine already expired on 2026-12-31";
          "✓ Manufacturer: MediCorp Pharma"], 95)).
Proof.
  intros out. subst out.
  unfold Upload.scan_qr_barcode, verify_medicine_authenticity.
  set (st2 := rule2 demo_scan (rule1 demo_scan init)).
  assert (E2 : st2 = {| status := valid; confidence := 95;
                        details := [ValidFormat; BatchValid "BATCH2024001"] |})
    by (vm_compute; reflexivity).
  assert (Ep : Strptime.strptime (expiry demo_scan)
               = Some (PyTime.midnight 2026 12 31))
    by (vm_compute; reflexivity).
  unfold rule3. rewrite (strptime_present _ _ Ep), Ep, E2.
  split; intros H.
  - destruct (Z.ltb_spec now (PyTime.midnight 2026 12 31)); [|lia].
    vm_compute. reflexivity.
  - destruct (Z.ltb_spec now (PyTime.midnight 2026 12 31)); [lia|].
    vm_compute. reflexivity.
Qed.

Lemma every_image_verifies_alike_witness :
  status (verify_medicine_authenticity (PyTime.midnight 2026 11 4)
            (Upload.scan_qr_barcode "scan_20261104_101500_box.png")) = valid.
Proof.
  destruct (every_image_verifies_alike (PyTime.midnight 2026 11 4)
              "scan_20261104_101500_box.png") as [H _].
  assert (Hlt : PyTime.midnight 2026 11 4 < PyTime.midnight 2026 12 31)
    by (vm_compute; reflexivity).
  specialize (H Hlt). unfold returned in H. inversion H as [[Hs Hd Hc]].
  destruct (status _); [reflexivity|discriminate Hs|discriminate Hs].
Defined.

End AuthenticityMore.

(** * More properties of the reminder generator *)

Module RemindersMore.
Import PyStr Reminders RemindersFacts.

(** X20. The hour of a slot lies between 6 and 21 hours after the start of
    its day; and when the times per day exceed 16 the spacing is zero and
    every slot of a day falls on hour 6. *)
Theorem slot_hours_within_day (times_per_day slot : Z) :
  0 <= slot < times_per_day ->
  6 <= hour_of times_per_day slot < 22
  /\ (16 < times_per_day -> hour_of times_per_day slot = 6).
Proof.
  intros H. unfold hour_of.
  replace (Z.max 1 times_per_day) with times_per_day by lia.
  assert (Hq : 0 <= 16 / times_per_day) by (apply Z.div_pos; lia).
  assert (Hm : times_per_day * (16 / times_per_day) <= 16)
    by (apply Z.mul_div_le; lia).
  split; [nia|].
  intros Hbig. rewrite (Z.div_small 16 times_per_day) by lia. lia.
Qed.

Lemma slot_hours_within_day_witness :
  6 <= hour_of 24 23 < 22 /\ hour_of 24 23 = 6.
Proof.
  assert (H : 0 <= 23 < 24) by lia.
  destruct (slot_hours_within_day 24 23 H) as [A B].
  split; [exact A|]. apply B. lia.
Defined.

(** ** The loops, when no addition leaves the datetimes *)

Lemma for_each_appends {A B : Type} (f : A -> list B)
      (body : A -> list B -> option (list B)) (xs : list A) :
  (forall x acc, In x xs -> body x acc = Some (acc ++ f x)%list) ->
  forall acc, for_each xs body acc = Some (acc ++ flat_map f xs)%list.
Proof.
  induction xs as [|x xs IH]; simpl; intros H acc.
  - now rewrite app_nil_r.
  - rewrite (H x acc (or_introl eq_refl)).
    rewrite IH by (intros y a Hy; apply H; now right).
    now rewrite app_assoc.
Qed.

Lemma range_length n : List.length (range n) = Z.to_nat n.
Proof. unfold range. now rewrite length_map, length_seq. Qed.

(** the schedule: the reminders of all slots that are kept, day by day *)
Lemma schedule_when_in_range mid uid timing duration start utcnow :
  0 <= start ->
  start + (duration - 1) * PyTime.us_per_day + 22 * PyTime.us_per_hour
  <= PyTime.datetime_max ->
  reminders_to_create mid uid timing duration start utcnow
  = Some (flat_map
            (fun day =>
               flat_map
                 (fun slot => kept mid uid start utcnow day slot
                                (hour_of (parse_times_per_day timing) slot))
                 (range (parse_times_per_day timing)))
            (range duration)).
Proof.
  intros Hs Hmax. unfold reminders_to_create.
  set (tpd := parse_times_per_day timing).
  rewrite (for_each_appends
             (fun day => flat_map
                (fun slot => kept mid uid start utcnow day slot (hour_of tpd slot))
                (range tpd))); [reflexivity|].
  intros day acc Hday. apply range_bounds in Hday.
  apply for_each_appends. intros slot acc' Hslot. apply range_bounds in Hslot.
  apply slot_body_ok; try lia.
  assert (Hh : 6 <= hour_of tpd slot < 22).
  { unfold hour_of. replace (Z.max 1 tpd) with tpd by lia.
    assert (0 <= 16 / tpd) by (apply Z.div_pos; lia).
    assert (tpd * (16 / tpd) <= 16) by (apply Z.mul_div_le; lia). nia. }
  unfold PyTime.datetime_max, PyTime.max_ordinal, PyTime.us_per_day,
    PyTime.us_per_hour in *. nia.
Qed.

Lemma flat_map_length_exact {A B : Type} (f : A -> list B) (xs : list A) (k : nat) :
  (forall x, In x xs -> List.length (f x) = k) ->
  List.length (flat_map f xs) = (List.length xs * k)%nat.
Proof.
  intros H. induction xs as [|x xs IH]; simpl; [reflexivity|].
  rewrite length_app, (H x (or_introl eq_refl)), IH; [lia|].
  intros y Hy. apply H. now right.
Qed.

(** X21. When the last day of the schedule is still a datetime, the
    generator builds, day by day and slot by slot, the reminders of the
    slots whose time is after the reading of the clock; and when every
    reading is before the first slot, it builds a reminder for every slot,
    [duration_days] times [times_per_day] of them. *)
Theorem schedule_is_complete (mid uid : Z) (timing : string) (duration start : Z)
        (utcnow : Z -> Z -> Z) :
  0 <= start ->
  start + (duration - 1) * PyTime.us_per_day + 22 * PyTime.us_per_hour
  <= PyTime.datetime_max ->
  let tpd := parse_times_per_day timing in
  reminders_to_create mid uid timing duration start utcnow
  = Some (flat_map
            (fun day =>
               flat_map
                 (fun slot => kept mid uid start utcnow day slot (hour_of tpd slot))
                 (range tpd))
            (range duration))
  /\ ((forall day slot, utcnow day slot < start + 6 * PyTime.us_per_hour) ->
      exists rs,
        reminders_to_create mid uid timing duration start utcnow = Some rs
        /\ List.length rs = (Z.to_nat duration * Z.to_nat tpd)%nat).
Proof.
  intros Hs Hmax tpd.
  pose proof (schedule_when_in_range mid uid timing duration start utcnow Hs Hmax)
    as E.
  fold tpd in E. split; [exact E|].
  intros Hclock. eexists. split; [exact E|].
  rewrite <- (range_length duration), <- (range_length tpd).
  apply flat_map_length_exact. intros day Hday. apply range_bounds in Hday.
  rewrite <- (Nat.mul_1_r (List.length (range tpd))).
  apply flat_map_length_exact. intros slot Hslot. apply range_bounds in Hslot.
  unfold kept. cbn [reminder_time slot_reminder].
  pose proof (hour_of_at_least_6 tpd slot (proj1 Hslot)) as Hh.
  specialize (Hclock day slot).
  destruct (Z.ltb_spec (utcnow day slot)
              (start + day * PyTime.us_per_day
               + hour_of tpd slot * PyTime.us_per_hour)); [reflexivity|].
  unfold PyTime.us_per_day, PyTime.us_per_hour in *. nia.
Qed.

Lemma schedule_is_complete_witness :
  let start := PyTime.midnight 2026 11 4 + 9 * PyTime.us_per_hour in
  exists rs,
    reminders_to_create 1 1 "2x/day" 7 start (fun _ _ => start + 1) = Some rs
    /\ List.length rs = 14%nat.
Proof.
  intros start.
  assert (H0 : 0 <= start) by (vm_compute; discriminate).
  assert (H1 : start + (7 - 1) * PyTime.us_per_day + 22 * PyTime.us_per_hour
               <= PyTime.datetime_max) by (vm_compute; discriminate).
  destruct (schedule_is_complete 1 1 "2x/day" 7 start (fun _ _ => start + 1) H0 H1)
    as [_ H].
  apply H. intros _ _. vm_compute. reflexivity.
Defined.

(** ** Every persisted reminder is scheduled *)

Lemma add_all_ids rs db :
  NoDup (List.map fst (fst (add_all rs db)))
  /\ forall row, In row (fst (add_all rs db)) -> next_reminder_id db <= fst row.
Proof.
  revert db. induction rs as [|r rs IH]; intros db; simpl.
  - split; [constructor|intros row []].
  - match goal with
    | |- context [add_all rs ?d] =>
        destruct (IH d) as [Hnd Hge]; destruct (add_all rs d) as [rows db'']
    end.
    cbn [fst snd next_reminder_id] in *. split.
    + simpl. constructor; [|exact Hnd].
      intros Hin. apply in_map_iff in Hin. destruct Hin as [row [E Hrow]].
      specialize (Hge row Hrow). lia.
    + intros row [<-|Hrow]; [simpl; lia|]. specialize (Hge row Hrow). lia.
Qed.

Lemma schedule_all_cons name uid row rows jobs :
  schedule_all name uid (row :: rows) jobs
  = schedule_all name uid rows
      (Scheduler.schedule_reminder (fst row) name uid (reminder_time (snd row)) jobs).
Proof. reflexivity. Qed.

Lemma schedule_all_unique name uid rows jobs :
  Scheduler.unique_ids jobs -> Scheduler.unique_ids (schedule_all name uid rows jobs).
Proof.
  revert jobs. induction rows as [|row rows IH]; intros jobs Hu; [exact Hu|].
  rewrite schedule_all_cons. apply IH.
  now destruct (SchedulerFacts.schedule_reminder_once (fst row) name uid
                  (reminder_time (snd row)) jobs Hu).
Qed.

Lemma schedule_all_other name uid rows jobs rid :
  Scheduler.unique_ids jobs -> ~ In rid (List.map fst rows) ->
  Scheduler.live_jobs (Scheduler.job_id rid) (schedule_all name uid rows jobs)
  = Scheduler.live_jobs (Scheduler.job_id rid) jobs.
Proof.
  revert jobs. induction rows as [|row rows IH]; intros jobs Hu Hn; [reflexivity|].
  rewrite schedule_all_cons.
  destruct (SchedulerFacts.schedule_reminder_once (fst row) name uid
              (reminder_time (snd row)) jobs Hu) as (Hu' & _ & O).
  rewrite (IH _ Hu'); [|simpl in Hn; tauto].
  apply O. intros H. apply RecoveryFacts.job_id_injective in H.
  simpl in Hn. subst. tauto.
Qed.

Lemma schedule_all_live name uid rows jobs rid r :
  Scheduler.unique_ids jobs -> NoDup (List.map fst rows) ->
  In (rid, r) rows ->
  Scheduler.live_jobs (Scheduler.job_id rid) (schedule_all name uid rows jobs)
  = [Recovery.job_of rid name uid (reminder_time r)].
Proof.
  revert jobs. induction rows as [|row rows IH]; intros jobs Hu Hnd Hin;
    [contradiction|].
  rewrite schedule_all_cons. simpl in Hnd.
  inversion Hnd as [|x l Hn Hd]; subst.
  destruct (SchedulerFacts.schedule_reminder_once (fst row) name uid
              (reminder_time (snd row)) jobs Hu) as (Hu' & L & _).
  destruct Hin as [->|Hin].
  - cbn [fst snd] in *. rewrite (schedule_all_other _ _ _ _ _ Hu' Hn). exact L.
  - now apply IH.
Qed.

(** X22. Every reminder [generate_medicine_reminders] adds to the store is
    scheduled: the function appends one row per reminder of the list it
    built, with ids that are new and distinct, and leaves for each row
    exactly one live job, under the row's id and at the row's time. *)
Theorem persisted_reminders_are_scheduled (start : Z) (utcnow : Z -> Z -> Z)
        (mid uid : Z) (timing : string) (duration : Z) (db : Store)
        (jobs : Scheduler.JobTable) (name : string) (rs : list Reminder) :
  Scheduler.unique_ids jobs ->
  medicine_name mid db = Some name ->
  reminders_to_create mid uid timing duration start utcnow = Some rs ->
  let w := generate_medicine_reminders start utcnow mid uid timing duration
                                       (db, jobs) in
  exists rows,
    reminders (fst w) = (reminders db ++ rows)%list
    /\ List.map snd rows = rs
    /\ NoDup (List.map fst rows)
    /\ (forall row, In row rows -> next_reminder_id db <= fst row)
    /\ forall rid r,
         In (rid, r) rows ->
         Scheduler.live_jobs (Scheduler.job_id rid) (snd w)
         = [Recovery.job_of rid name uid (reminder_time r)].
Proof.
  intros Hu Hname Hrs w. subst w.
  unfold generate_medicine_reminders. rewrite Hname, Hrs.
  destruct rs as [|r rs].
  - exists []. cbn [fst snd]. rewrite app_nil_r.
    repeat split; try constructor; intros; simpl in *; contradiction.
  - destruct (add_all_rows (r :: rs) db) as [E1 E2].
    destruct (add_all_ids (r :: rs) db) as [Hnd Hge].
    destruct (add_all (r :: rs) db) as [rows db'].
    cbn [fst snd] in *. exists rows. repeat split; try assumption.
    intros rid r0 Hin. now apply schedule_all_live.
Qed.

Lemma persisted_reminders_are_scheduled_witness :
  let start := PyTime.midnight 2026 11 4 + 9 * PyTime.us_per_hour in
  let db := {| medicines := [(5, "Aspirin")]; reminders := [];
               next_reminder_id := 1 |} in
  let w := generate_medicine_reminders start (fun _ _ => start) 5 1 "2x/day" 1
                                       (db, []) in
  exists rows,
    reminders (fst w) = rows
    /\ List.map snd rows = [slot_reminder 5 1 start 0 6; slot_reminder 5 1 start 0 14]
    /\ forall rid r,
         In (rid, r) rows ->
         Scheduler.live_jobs (Scheduler.job_id rid) (snd w)
         = [Recovery.job_of rid "Aspirin" 1 (reminder_time r)].
Proof.
  intros start db w.
  assert (Hu : Scheduler.unique_ids []) by constructor.
  assert (Hrs : reminders_to_create 5 1 "2x/day" 1 start (fun _ _ => start)
                = Some [slot_reminder 5 1 start 0 6; slot_reminder 5 1 start 0 14])
    by (vm_compute; reflexivity).
  destruct (persisted_reminders_are_scheduled start (fun _ _ => start) 5 1
              "2x/day" 1 db [] "Aspirin" _ Hu eq_refl Hrs)
    as (rows & A & B & _ & _ & C).
  exists rows. split; [exact A|]. split; [exact B|exact C].
Defined.

End RemindersMore.

(** * Properties of the accounts *)

Module AccountsFacts.
Import PyStr PyText Accounts.

Lemma by_username_none u db :
  by_username u db = None -> ~ In u (List.map username (users db)).
Proof.
  unfold by_username. intros H Hin. apply in_map_iff in Hin.
  destruct Hin as [x [E Hx]]. pose proof (find_none _ _ H x Hx) as F.
  cbv beta in F. rewrite E, String.eqb_refl in F. discriminate.
Qed.

Lemma by_email_none e db :
  by_email e db = None -> ~ In e (List.map email (users db)).
Proof.
  unfold by_email. intros H Hin. apply in_map_iff in Hin.
  destruct Hin as [x [E Hx]]. pose proof (find_none _ _ H x Hx) as F.
  cbv beta in F. rewrite E, String.eqb_refl in F. discriminate.
Qed.

Lemma NoDup_snoc {A : Type} (l : list A) (x : A) :
  NoDup l -> ~ In x l -> NoDup (l ++ [x]).
Proof.
  intros Hl Hx. apply NoDup_app; [assumption|repeat constructor; simpl; tauto|].
  intros y Hy [<-|[]]. contradiction.
Qed.


(** The answer of [signup], case by case. *)
Lemma signup_cases hash fn fu fe pw cpw db :
  (page (fst (signup hash fn fu fe pw cpw db)) = "signup"
   /\ snd (signup hash fn fu fe pw cpw db) = db)
  \/ (page (fst (signup hash fn fu fe pw cpw db)) = "login"
      /\ truthy (strip fn) = true /\ truthy (strip fu) = true
      /\ truthy (strip fe) = true
      /\ pw = cpw /\ 6 <= len pw
      /\ by_username (strip fu) db = None /\ by_email (strip fe) db = None
      /\ snd (signup hash fn fu fe pw cpw db)
         = {| users := (users db
                          ++ [ {| id := next_user_id db; name := strip fn;
                                  username := strip fu; email := strip fe;
                                  password_hash := hash pw |} ])%list;
              next_user_id := next_user_id db + 1 |}).
Proof.
  unfold signup.
  destruct (forallb truthy _) eqn:Hall; cbn [negb]; [|left; split; reflexivity].
  destruct (String.eqb_spec pw cpw) as [Heq|]; cbn [negb];
    [|left; split; reflexivity].
  destruct (Z.ltb_spec (len pw) 6); [left; split; reflexivity|].
  destruct (by_username (strip fu) db) eqn:Hu; cbn [is_some];
    [left; split; reflexivity|].
  destruct (by_email (strip fe) db) eqn:He; cbn [is_some];
    [left; split; reflexivity|].
  right. cbn [forallb] in Hall.
  repeat (apply andb_prop in Hall; destruct Hall as [? Hall]).
  repeat split; assumption.
Qed.

(** X23. [signup] keeps the user names and the e-mail addresses of the
    table distinct, and keeps every user that was there: it adds at most
    one user, at the end, under a new id. *)
Theorem signup_keeps_accounts_unique (hash : string -> string)
        (fn fu fe pw cpw : string) (db : Users) :
  NoDup (List.map username (users db)) ->
  NoDup (List.map email (users db)) ->
  let db' := snd (signup hash fn fu fe pw cpw db) in
  NoDup (List.map username (users db'))
  /\ NoDup (List.map email (users db'))
  /\ (db' = db
      \/ exists user, users db' = (users db ++ [user])%list
                      /\ id user = next_user_id db
                      /\ next_user_id db' = next_user_id db + 1).
Proof.
  intros Hu He db'. subst db'.
  destruct (signup_cases hash fn fu fe pw cpw db)
    as [[_ ->]|(_ & _ & _ & _ & _ & _ & Nu & Ne & ->)].
  - auto.
  - cbn [users next_user_id]. rewrite !map_app. cbn [List.map username email].
    split; [apply NoDup_snoc; [assumption|now apply by_username_none]|].
    split; [apply NoDup_snoc; [assumption|now apply by_email_none]|].
    right. eexists. repeat split.
Qed.

Lemma signup_keeps_accounts_unique_witness :
  let db := {| users := [ {| id := 1; name := "John Doe"; username := "johndoe";
                             email := "john@example.com";
                             password_hash := "h" |} ];
               next_user_id := 2 |} in
  let db' := snd (signup (fun p => p) "Jane" " johndoe " "jane@example.com"
                         "password123" "password123" db) in
  NoDup (List.map username (users db')) /\ db' = db.
Proof.
  intros db db'.
  assert (Hu : NoDup (List.map username (users db)))
    by (simpl; repeat constructor; simpl; tauto).
  assert (He : NoDup (List.map email (users db)))
    by (simpl; repeat constructor; simpl; tauto).
  destruct (signup_keeps_accounts_unique (fun p => p) "Jane" " johndoe "
              "jane@example.com" "password123" "password123" db Hu He)
    as (A & _ & _).
  split; [exact A|reflexivity].
Defined.




End AccountsFacts.
